(** * Analytics and rate conversion of synbio_morpher: a shallow embedding

    The two source files embedded here are

    - [synbio_morpher/utils/modelling/physical.py]
      (equilibrium constants and reaction rates), and
    - [synbio_morpher/utils/results/analytics/timeseries.py]
      (per-species analytics of a simulated trajectory).

    Both are array programs over [numpy] / [jax.numpy].  The embedding has
    three layers:

    - [Numeric]: the arithmetic of an array's element type (the dtype), with
      the IEEE 754 conventions for infinities and NaN.  It is instantiated
      at IEEE binary64 and binary32 (through the Standard Library's
      [SpecFloat], which rounds to nearest even as the hardware does) and at
      exact real arithmetic extended with infinities and NaN;
    - [ndarray]: arrays of at most two axes with numpy's broadcasting,
      reductions, indexing and the exceptions these raise;
    - the source functions, translated line by line in the monad [py] of
      Python outcomes (a value or an exception).

    What is modelled of the libraries, and how:

    - a reduction that adds ([jnp.mean]) adds the items of a row from the
      left; the order in which the library adds is not specified.  The
      mean is that sum times the rounded reciprocal of the number of items,
      as the compiled program computes it;
    - an index out of range raises [IndexError], as in [numpy]
      ([jax.numpy] clamps it instead; the theorems on indexing take the
      index in range);
    - incompatible shapes raise [ValueError], as in [numpy] (arithmetic
      in [jax.numpy] raises [TypeError]; no theorem is about which);
    - the identity of an array object is modelled where the source tests
      it, in [compute_peaks].

    How the rest is modelled:

    - [jnp.log10] is a parameter of the element type ([Elementary]): what
      is proved of [calculate_adaptation] and [compute_adaptability_full]
      holds for every function in its place;
    - the suffixes [DIFF_KEY] and [RATIO_KEY] of the module [naming] are
      parameters of [generate_differences_ratios], which runs in the
      monad [outcome] that adds [KeyError] and [AttributeError] to the
      exceptions of [py].

    Not embedded: the functions computing exponentials ([gibbs_K],
    [gibbs_K_cal], [equilibrium_constant_reparameterisation]), the spectral
    and distance helpers ([frequency], [log_distance], [mag],
    [vec_distance]) and the class [Timeseries]. *)

From Stdlib Require Import String Ascii DecimalString DecimalNat.
From Stdlib Require Import ZArith List Bool Lia.
From Stdlib Require Import SpecFloat.
From Stdlib Require Import Reals Lra.
Import ListNotations.

Set Implicit Arguments.

(** ** The element type *)

(** Operations of a floating-point dtype.  [of_Z] is how an integer literal
    of the source ([0], [1], [-1], a count) enters an expression on floats. *)
Class Numeric (F : Type) : Type := {
  of_Z : Z -> F;
  inf : F;
  nan : F;
  fadd : F -> F -> F;
  fsub : F -> F -> F;
  fmul : F -> F -> F;
  fdiv : F -> F -> F;
  fabs : F -> F;
  fsqrt : F -> F;
  feqb : F -> F -> bool;
  fltb : F -> F -> bool
}.

Declare Scope num_scope.
Delimit Scope num_scope with num.
Infix "+" := fadd : num_scope.
Infix "-" := fsub : num_scope.
Infix "*" := fmul : num_scope.
Infix "/" := fdiv : num_scope.
Infix "==" := feqb (at level 70, no associativity) : num_scope.
Notation "x != y" := (negb (feqb x y)) (at level 70, no associativity) : num_scope.
Infix "<" := fltb : num_scope.
Notation "x > y" := (fltb y x) : num_scope.

(** The conventions of IEEE 754 that the guards of the source rely on. *)
Class NumericLaws (F : Type) `{Numeric F} : Prop := {
  nan_div_l : forall x : F, fdiv nan x = nan;
  one_mul_inf : fmul (of_Z 1) inf = inf;
  inf_nonzero : feqb inf (of_Z 0) = false;
  neg1_eqb : feqb (of_Z (-1)) (of_Z (-1)) = true;
  eqb_neg1_nonzero :
    forall x : F, feqb x (of_Z (-1)) = true -> feqb x (of_Z 0) = false;
  abs_not_negative : forall x : F, fltb (fabs x) (of_Z 0) = false
}.

(** *** IEEE 754 binary formats *)

Module IEEE.

Section Format.
Variables prec emax : Z.

Definition ieee_of_Z (z : Z) : spec_float :=
      binary_normalize prec emax z 0 false.

Definition numeric : Numeric spec_float := {|
      of_Z := ieee_of_Z;
      inf := S754_infinity false;
      nan := S754_nan;
      fadd := SFadd prec emax;
      fsub := SFsub prec emax;
      fmul := SFmul prec emax;
      fdiv := SFdiv prec emax;
      fabs := SFabs;
      fsqrt := SFsqrt prec emax;
      feqb := SFeqb;
      fltb := SFltb
    |}.

End Format.

  (** [numpy]'s default dtype, and Python's [float]. *)
Definition binary64 : Numeric spec_float := numeric 53 1024.
  (** [jax.numpy]'s default dtype. *)
Definition binary32 : Numeric spec_float := numeric 24 128.

End IEEE.

(** *** Exact arithmetic

    Real numbers with the two infinities and NaN, every operation exact.
    There is one zero, so a quotient by zero takes the sign of the
    numerator. *)

Module Exact.

Inductive xreal : Type :=
  | Fin (r : R)
  | PInf
  | NInf
  | NaN.

Definition Reqb (a b : R) : bool := if Req_dec_T a b then true else false.
Definition Rltb (a b : R) : bool := if Rlt_dec a b then true else false.

  (** The infinity with the sign of [a]; [a] is not zero. *)
Definition signed_inf (a : R) : xreal := if Rltb 0 a then PInf else NInf.

Definition xopp (x : xreal) : xreal :=
    match x with
    | Fin a => Fin (- a)
    | PInf => NInf
    | NInf => PInf
    | NaN => NaN
    end.

Definition xadd (x y : xreal) : xreal :=
    match x, y with
    | NaN, _ | _, NaN => NaN
    | PInf, NInf | NInf, PInf => NaN
    | PInf, _ | _, PInf => PInf
    | NInf, _ | _, NInf => NInf
    | Fin a, Fin b => Fin (a + b)
    end.

Definition xsub (x y : xreal) : xreal := xadd x (xopp y).

Definition xmul (x y : xreal) : xreal :=
    match x, y with
    | NaN, _ | _, NaN => NaN
    | Fin a, Fin b => Fin (a * b)
    | Fin a, PInf | PInf, Fin a => if Reqb a 0 then NaN else signed_inf a
    | Fin a, NInf | NInf, Fin a => if Reqb a 0 then NaN else signed_inf (- a)
    | PInf, PInf | NInf, NInf => PInf
    | PInf, NInf | NInf, PInf => NInf
    end.

Definition xdiv (x y : xreal) : xreal :=
    match x, y with
    | NaN, _ | _, NaN => NaN
    | Fin a, Fin b =>
        if Reqb b 0 then (if Reqb a 0 then NaN else signed_inf a)
        else Fin (a / b)
    | Fin _, (PInf | NInf) => Fin 0
    | PInf, Fin b => if Rltb b 0 then NInf else PInf
    | NInf, Fin b => if Rltb b 0 then PInf else NInf
    | (PInf | NInf), (PInf | NInf) => NaN
    end.

Definition xabs (x : xreal) : xreal :=
    match x with
    | Fin a => Fin (Rabs a)
    | PInf | NInf => PInf
    | NaN => NaN
    end.

Definition xsqrt (x : xreal) : xreal :=
    match x with
    | Fin a => if Rltb a 0 then NaN else Fin (sqrt a)
    | PInf => PInf
    | NInf | NaN => NaN
    end.

Definition xeqb (x y : xreal) : bool :=
    match x, y with
    | Fin a, Fin b => Reqb a b
    | PInf, PInf | NInf, NInf => true
    | _, _ => false
    end.

Definition xltb (x y : xreal) : bool :=
    match x, y with
    | NaN, _ | _, NaN => false
    | Fin a, Fin b => Rltb a b
    | NInf, (Fin _ | PInf) => true
    | Fin _, PInf => true
    | _, _ => false
    end.

Definition numeric : Numeric xreal := {|
    of_Z := fun z => Fin (IZR z);
    inf := PInf;
    nan := NaN;
    fadd := xadd;
    fsub := xsub;
    fmul := xmul;
    fdiv := xdiv;
    fabs := xabs;
    fsqrt := xsqrt;
    feqb := xeqb;
    fltb := xltb
  |}.

End Exact.

(** ** Python outcomes *)

(** The exceptions the modelled part of [numpy] and of Python raises.
    [Rank3] is not an exception: it marks a result with three axes, which
    this model of arrays does not represent. *)
Inductive exn : Type :=
| ValueError
| IndexError
| TypeError
| AxisError
| Rank3.

Inductive py (A : Type) : Type :=
| Ok (a : A)
| Raise (e : exn).

Arguments Ok {A} a.
Arguments Raise {A} e.

Definition bind {A B : Type} (m : py A) (k : A -> py B) : py B :=
  match m with
  | Ok a => k a
  | Raise e => Raise e
  end.

Definition fmap {A B : Type} (f : A -> B) (m : py A) : py B :=
  bind m (fun a => Ok (f a)).

Declare Scope py_scope.
Delimit Scope py_scope with py.
Notation "x <- m ;; k" := (bind m (fun x => k))
  (at level 61, m at next level, right associativity) : py_scope.
Open Scope py_scope.

(** ** Arrays *)

(** The shape of an array of at most two axes: [()], [(n,)] or [(r, c)]. *)
Inductive shape : Type :=
| Sh0
| Sh1 (n : nat)
| Sh2 (r c : nat).

(** An array is its shape and its items.  Broadcasting aligns the last
    axes, so the items of an array of shape [(n,)] are at row [0], and the
    one item of an array of shape [()] is at row [0], column [0].  What
    [item] returns outside the shape is never read. *)
Record ndarray (A : Type) : Type := mk_array {
  shape_of : shape;
  item : nat -> nat -> A
}.

Definition rows (s : shape) : nat :=
  match s with
  | Sh0 | Sh1 _ => 1
  | Sh2 r _ => r
  end.

Definition cols (s : shape) : nat :=
  match s with
  | Sh0 => 1
  | Sh1 n => n
  | Sh2 _ c => c
  end.

(** [a.shape], a tuple. *)
Definition shape_tuple (s : shape) : list nat :=
  match s with
  | Sh0 => []
  | Sh1 n => [n]
  | Sh2 r c => [r; c]
  end.

(** [tup[i]] for a non-negative [i]. *)
Definition tuple_get (tup : list nat) (i : nat) : py nat :=
  match nth_error tup i with
  | Some n => Ok n
  | None => Raise IndexError
  end.

(** [tup[-1]]. *)
Definition tuple_last (tup : list nat) : py nat :=
  match rev tup with
  | n :: _ => Ok n
  | [] => Raise IndexError
  end.

(** [tup.index(x)]: the first position of [x], [ValueError] when there is
    none. *)
Fixpoint tuple_index (tup : list nat) (x : nat) : py nat :=
  match tup with
  | [] => Raise ValueError
  | n :: rest => if n =? x then Ok 0 else fmap S (tuple_index rest x)
  end.

(** A Python scalar, or an array of shape [()]. *)
Definition scalar {A : Type} (x : A) : ndarray A :=
  {| shape_of := Sh0; item := fun _ _ => x |}.

(** The array of shape [(len(l),)] holding [l]. *)
Definition vector {A : Type} (d : A) (l : list A) : ndarray A :=
  {| shape_of := Sh1 (length l); item := fun _ j => nth j l d |}.

(** The array of shape [(len(l), len(l[0]))] holding the rows [l]. *)
Definition matrix {A : Type} (d : A) (l : list (list A)) : ndarray A :=
  {| shape_of := Sh2 (length l) (length (hd [] l));
     item := fun i j => nth j (nth i l []) d |}.

(** The items of an array, row by row. *)
Definition row_items {A : Type} (a : ndarray A) (i : nat) : list A :=
  map (item a i) (seq 0 (cols (shape_of a))).

Definition to_rows {A : Type} (a : ndarray A) : list (list A) :=
  map (row_items a) (seq 0 (rows (shape_of a))).

Definition to_list {A : Type} (a : ndarray A) : list A := row_items a 0.

(** *** Broadcasting *)

(** Two axis lengths are compatible when they are equal or one of them
    is 1. *)
Definition bdim (n m : nat) : option nat :=
  if n =? m then Some n
  else if n =? 1 then Some m
  else if m =? 1 then Some n
  else None.

Definition bshape (s1 s2 : shape) : option shape :=
  match s1, s2 with
  | Sh0, s | s, Sh0 => Some s
  | Sh1 n, Sh1 m => option_map Sh1 (bdim n m)
  | Sh1 n, Sh2 r c => option_map (Sh2 r) (bdim n c)
  | Sh2 r c, Sh1 n => option_map (Sh2 r) (bdim c n)
  | Sh2 r1 c1, Sh2 r2 c2 =>
      match bdim r1 r2, bdim c1 c2 with
      | Some r, Some c => Some (Sh2 r c)
      | _, _ => None
      end
  end.

(** The index read along an axis of length [n] for the index [i] of the
    broadcast result. *)
Definition bidx (n i : nat) : nat := if n =? 1 then 0 else i.

Definition bitem {A : Type} (a : ndarray A) (i j : nat) : A :=
  item a (bidx (rows (shape_of a)) i) (bidx (cols (shape_of a)) j).

(** A unary operation, element by element. *)
Definition map1 {A B : Type} (f : A -> B) (a : ndarray A) : ndarray B :=
  {| shape_of := shape_of a; item := fun i j => f (item a i j) |}.

(** A binary operation, element by element. *)
Definition lift2 {A B C : Type} (f : A -> B -> C)
    (a : ndarray A) (b : ndarray B) : py (ndarray C) :=
  match bshape (shape_of a) (shape_of b) with
  | Some s => Ok {| shape_of := s;
                    item := fun i j => f (bitem a i j) (bitem b i j) |}
  | None => Raise ValueError
  end.

(** [jnp.where(c, x, y)]. *)
Definition where_ {A : Type} (c : ndarray bool) (x y : ndarray A)
    : py (ndarray A) :=
  match bshape (shape_of c) (shape_of x) with
  | Some s1 =>
      match bshape s1 (shape_of y) with
      | Some s => Ok {| shape_of := s;
                        item := fun i j =>
                          if bitem c i j then bitem x i j else bitem y i j |}
      | None => Raise ValueError
      end
  | None => Raise ValueError
  end.

(** *** Indexing *)

(** [a[:, j]] for a non-negative [j]. *)
Definition column {A : Type} (a : ndarray A) (j : nat) : py (ndarray A) :=
  match shape_of a with
  | Sh2 r c =>
      if j <? c then Ok {| shape_of := Sh1 r; item := fun _ i => item a i j |}
      else Raise IndexError
  | _ => Raise IndexError
  end.

(** [a[:, -1]]. *)
Definition last_column {A : Type} (a : ndarray A) : py (ndarray A) :=
  match shape_of a with
  | Sh2 r c =>
      if 0 <? c
      then Ok {| shape_of := Sh1 r; item := fun _ i => item a i (c - 1) |}
      else Raise IndexError
  | _ => Raise IndexError
  end.

(** [a[:, :k]]. *)
Definition take_columns {A : Type} (a : ndarray A) (k : nat) : py (ndarray A) :=
  match shape_of a with
  | Sh2 r c => Ok {| shape_of := Sh2 r (Nat.min k c); item := item a |}
  | _ => Raise IndexError
  end.

(** [a[:k]]. *)
Definition take_first {A : Type} (a : ndarray A) (k : nat) : py (ndarray A) :=
  match shape_of a with
  | Sh0 => Raise IndexError
  | Sh1 n => Ok {| shape_of := Sh1 (Nat.min k n); item := item a |}
  | Sh2 r c => Ok {| shape_of := Sh2 (Nat.min k r) c; item := item a |}
  end.

(** The position an integer index denotes on an axis of length [n]:
    negative indices count from the end. *)
Definition axis_index (n : nat) (i : Z) : py nat :=
  if (0 <=? i)%Z && (i <? Z.of_nat n)%Z then Ok (Z.to_nat i)
  else if (i <? 0)%Z && (- Z.of_nat n <=? i)%Z then Ok (Z.to_nat (Z.of_nat n + i))
  else Raise IndexError.

(** [a[i]]. *)
Definition getitem {A : Type} (a : ndarray A) (i : Z) : py (ndarray A) :=
  match shape_of a with
  | Sh0 => Raise IndexError
  | Sh1 n => k <- axis_index n i ;; Ok (scalar (item a 0 k))
  | Sh2 r c =>
      k <- axis_index r i ;;
      Ok {| shape_of := Sh1 c; item := fun _ j => item a k j |}
  end.

(** [a[:, None]]. *)
Definition expand_last {A : Type} (a : ndarray A) : py (ndarray A) :=
  match shape_of a with
  | Sh0 => Raise IndexError
  | Sh1 n => Ok {| shape_of := Sh2 n 1; item := fun i _ => item a 0 i |}
  | Sh2 _ _ => Raise Rank3
  end.

(** [a.reshape(-1, 1)]: the items in row-major order, one per row. *)
Definition reshape_column {A : Type} (a : ndarray A) : ndarray A :=
  match shape_of a with
  | Sh0 => {| shape_of := Sh2 1 1; item := fun _ _ => item a 0 0 |}
  | Sh1 n => {| shape_of := Sh2 n 1; item := fun i _ => item a 0 i |}
  | Sh2 r c =>
      {| shape_of := Sh2 (r * c) 1;
         item := fun i _ => item a (i / c) (i mod c) |}
  end.

(** [a.squeeze()]: the axes of length 1 removed. *)
Definition squeeze {A : Type} (a : ndarray A) : ndarray A :=
  match shape_of a with
  | Sh0 => a
  | Sh1 n => if n =? 1 then scalar (item a 0 0) else a
  | Sh2 r c =>
      if r =? 1 then
        if c =? 1 then scalar (item a 0 0)
        else {| shape_of := Sh1 c; item := fun _ j => item a 0 j |}
      else if c =? 1 then {| shape_of := Sh1 r; item := fun _ i => item a i 0 |}
      else a
  end.

(** [np.swapaxes(a, 0, k)] for the axis [k] that [tuple.index] found. *)
Definition swapaxes0 {A : Type} (a : ndarray A) (k : nat) : py (ndarray A) :=
  match shape_of a, k with
  | Sh1 _, 0 => Ok a
  | Sh2 _ _, 0 => Ok a
  | Sh2 r c, 1 => Ok {| shape_of := Sh2 c r; item := fun i j => item a j i |}
  | _, _ => Raise AxisError
  end.

(** [len(a)]. *)
Definition py_len {A : Type} (a : ndarray A) : py nat :=
  match shape_of a with
  | Sh0 => Raise TypeError
  | Sh1 n => Ok n
  | Sh2 r _ => Ok r
  end.

(** *** Reductions *)

(** A reduction along the last axis ([axis=-1]); [f] folds the items of
    one row.  A reduction with no identity ([max], [min]) raises on an axis
    of length 0. *)
Definition reduce_last {A B : Type} (f : list A -> B) (needs_items : bool)
    (a : ndarray A) : py (ndarray B) :=
  match shape_of a with
  | Sh0 => Raise AxisError
  | Sh1 n =>
      if needs_items && (n =? 0) then Raise ValueError
      else Ok (scalar (f (row_items a 0)))
  | Sh2 r c =>
      if needs_items && (c =? 0) then Raise ValueError
      else Ok {| shape_of := Sh1 r; item := fun _ i => f (row_items a i) |}
  end.

(** A reduction along [axis=1], which an array of fewer than two axes does
    not have. *)
Definition reduce_axis1 {A B : Type} (f : list A -> B) (needs_items : bool)
    (a : ndarray A) : py (ndarray B) :=
  match shape_of a with
  | Sh2 _ _ => reduce_last f needs_items a
  | _ => Raise AxisError
  end.

(** ** Arithmetic on arrays *)

Section ArrayArith.
Context {F : Type} `{Numeric F}.

(** An integer literal of the source. *)
Definition lit (z : Z) : ndarray F := scalar (of_Z z).

(** A boolean in an arithmetic expression: [True] is 1, [False] is 0. *)
Definition of_bool (b : bool) : F := if b then of_Z 1 else of_Z 0.

Definition is_nan (x : F) : bool := negb (feqb x x).

(** [a + b], [a - b], [a * b], [a / b] and the comparisons. *)
Definition add (a b : ndarray F) : py (ndarray F) := lift2 fadd a b.
Definition sub (a b : ndarray F) : py (ndarray F) := lift2 fsub a b.
Definition mul (a b : ndarray F) : py (ndarray F) := lift2 fmul a b.
Definition div (a b : ndarray F) : py (ndarray F) := lift2 fdiv a b.
Definition ne (a b : ndarray F) : py (ndarray bool) :=
  lift2 (fun x y => negb (feqb x y)) a b.
Definition lt (a b : ndarray F) : py (ndarray bool) := lift2 fltb a b.
Definition gt (a b : ndarray F) : py (ndarray bool) :=
  lift2 (fun x y => fltb y x) a b.

(** [a * m] for an array [m] of booleans. *)
Definition mul_mask (a : ndarray F) (m : ndarray bool) : py (ndarray F) :=
  lift2 (fun x b => fmul x (of_bool b)) a m.

(** [m.astype(int)], and such an array as the condition of [where]. *)
Definition astype_int (m : ndarray bool) : ndarray Z :=
  map1 (fun b : bool => if b then 1%Z else 0%Z) m.

Definition truthy (m : ndarray Z) : ndarray bool :=
  map1 (fun z => negb (z =? 0)%Z) m.

Definition absolute (a : ndarray F) : ndarray F := map1 fabs a.

(** [jnp.power(a, 2)]. *)
Definition square (a : ndarray F) : ndarray F := map1 (fun x => fmul x x) a.

(** [jnp.zeros(shape=(n, 1))] and [np.ones_like(a)]. *)
Definition zeros_column (n : nat) : ndarray F :=
  {| shape_of := Sh2 n 1; item := fun _ _ => of_Z 0 |}.

Definition ones_like (a : ndarray F) : ndarray F := map1 (fun _ => of_Z 1) a.

(** [max] and [min] of two items; a NaN wins. *)
Definition fmax2 (x y : F) : F :=
  if is_nan x then x else if is_nan y then y else if fltb x y then y else x.

Definition fmin2 (x y : F) : F :=
  if is_nan x then x else if is_nan y then y else if fltb y x then y else x.

Definition fold1 (f : F -> F -> F) (l : list F) : F :=
  match l with
  | [] => nan
  | x :: rest => fold_left f rest x
  end.

(** [jnp.max(a, axis=k)] and [jnp.min(a, axis=k)]. *)
Definition max_last (a : ndarray F) : py (ndarray F) :=
  reduce_last (fold1 fmax2) true a.
Definition min_last (a : ndarray F) : py (ndarray F) :=
  reduce_last (fold1 fmin2) true a.
Definition max_axis1 (a : ndarray F) : py (ndarray F) :=
  reduce_axis1 (fold1 fmax2) true a.
Definition min_axis1 (a : ndarray F) : py (ndarray F) :=
  reduce_axis1 (fold1 fmin2) true a.

(** The sum of a row, from the left, and its mean.  The compiled
    [jnp.mean] does not divide the sum by the number of items: it
    multiplies the sum by the reciprocal of that number, itself rounded,
    which can differ from the quotient in the last place.  No item gives
    NaN. *)
Definition fsum (l : list F) : F := fold_left fadd l (of_Z 0).

Definition fmean (l : list F) : F :=
  fmul (fsum l) (fdiv (of_Z 1) (of_Z (Z.of_nat (length l)))).

(** [jnp.mean(a, axis=1)]. *)
Definition mean_axis1 (a : ndarray F) : py (ndarray F) :=
  reduce_axis1 fmean false a.

(** [jnp.gradient(a)] for an array of two axes and unit spacing: a list of
    two arrays, the gradient along each axis.  Every axis is differentiated,
    so [ValueError] ("Shape of array too small to calculate a numerical
    gradient, at least 2 elements are required.") is raised when any axis
    has fewer than two items.  Along an axis the first and the last item get
    the one-sided difference and the others half the difference of their
    neighbours, each then divided by the spacing [1.0]. *)
Definition gradient_line (x : nat -> F) (n k : nat) : F :=
  fdiv
    (if k =? 0 then fsub (x 1) (x 0)
     else if k =? n - 1 then fsub (x (n - 1)) (x (n - 2))
     else fmul (fsub (x (k + 1)) (x (k - 1))) (fdiv (of_Z 1) (of_Z 2)))
    (of_Z 1).

Definition gradient_2d (a : ndarray F) (r c : nat) : py (list (ndarray F)) :=
  if Nat.min r c <? 2 then Raise ValueError
  else Ok [ {| shape_of := Sh2 r c;
               item := fun i j => gradient_line (fun k => item a k j) r i |};
            {| shape_of := Sh2 r c;
               item := fun i j => gradient_line (fun k => item a i k) c j |} ].

End ArrayArith.

(** ** Python objects *)

(** Only [compute_peaks] observes the identity of an array (with [is]), so
    only there are arrays passed as objects.  A new object gets an identity
    that no live object has. *)
Record pyobj (F : Type) : Type := mk_obj {
  oid : nat;
  arr : ndarray F
}.

Definition fresh_oid {F : Type} (live : list (pyobj F)) : nat :=
  S (list_max (map (@oid F) live)).

Definition new_obj {F : Type} (live : list (pyobj F)) (a : ndarray F) : pyobj F :=
  {| oid := fresh_oid live; arr := a |}.

(** [a is b]. *)
Definition py_is {F : Type} (a b : pyobj F) : bool := oid a =? oid b.

(** A value that may be [None]. *)
Inductive pyval (F : Type) : Type :=
| PyNone
| Arr (a : ndarray F).

Arguments PyNone {F}.
Arguments Arr {F} a.

(** A [dict] with string keys, in insertion order. *)
Definition dict (F : Type) : Type := list (string * pyval F).

Fixpoint dict_set {F : Type} (d : dict F) (k : string) (v : pyval F) : dict F :=
  match d with
  | [] => [(k, v)]
  | (k', v') :: rest =>
      if String.eqb k' k then (k, v) :: rest else (k', v') :: dict_set rest k v
  end.

Fixpoint dict_get {F : Type} (d : dict F) (k : string) : option (pyval F) :=
  match d with
  | [] => None
  | (k', v) :: rest => if String.eqb k' k then Some v else dict_get rest k
  end.

(** [str(n)] for an index. *)
Definition str_of_nat (n : nat) : string := NilZero.string_of_uint (Nat.to_uint n).

(** ** physical.py *)

Section Physical.
Context {F : Type} `{Numeric F}.

Definition eqconstant_to_rates (eqconstants k_f : ndarray F)
    : py (ndarray F * ndarray F) :=
  k_r <- div k_f eqconstants ;;
  k_f' <- mul k_f (ones_like k_r) ;;
  Ok (k_f', k_r).

Definition rates_to_eqconstant (k_f k_r : ndarray F) : py (ndarray F) :=
  eqconstants <- div k_f k_r ;;
  Ok eqconstants.

End Physical.

(** ** timeseries.py *)

Section Timeseries.
Context {F : Type} `{Numeric F}.

Definition TIMEAXIS : nat := 1.

Definition compute_derivative (data : ndarray F) : py (ndarray F) :=
  n <- tuple_get (shape_tuple (shape_of data)) TIMEAXIS ;;
  if n <=? 1 then mul (ones_like data) (scalar inf)
  else
    grads <- gradient_2d data (rows (shape_of data)) (cols (shape_of data)) ;;
    match nth_error grads 1 with
    | Some deriv => Ok deriv
    | None => Raise IndexError
    end.

Definition compute_fold_change (starting_states steady_states : ndarray F)
    : py (ndarray F) :=
  c <- ne starting_states (lit 0) ;;
  denom <- where_ c starting_states (lit (-1)) ;;
  c' <- ne denom (lit (-1)) ;;
  q <- div steady_states denom ;;
  fold_change <- where_ c' q (scalar nan) ;;
  Ok fold_change.

Definition compute_overshoot (steady_states peaks : ndarray F) : py (ndarray F) :=
  d <- sub peaks steady_states ;;
  Ok (absolute d).

Definition compute_peaks_deprecated
    (initial_steady_states final_steady_states maxa mina : ndarray F)
    : py (ndarray F) :=
  c <- lt initial_steady_states final_steady_states ;;
  d <- sub maxa mina ;;
  up <- add d initial_steady_states ;;
  d' <- sub mina maxa ;;
  down <- add d' initial_steady_states ;;
  where_ c up down.

(** [peak] is the new object that [jnp.where] returns; the objects passed
    in are live when it is made. *)
Definition compute_peaks
    (initial_steady_states final_steady_states maxa mina : pyobj F)
    : py (ndarray F) :=
  c <- gt (arr final_steady_states) (arr initial_steady_states) ;;
  p <- where_ c (arr maxa) (arr mina) ;;
  let peak :=
    new_obj [initial_steady_states; final_steady_states; maxa; mina] p in
  c' <- lt (arr initial_steady_states) (arr peak) ;;
  where_ c' (arr peak) (arr (if py_is peak mina then maxa else mina)).

Definition calculate_precision_core
    (output_diff starting_states signal_diff signal_0 : ndarray F)
    : py (ndarray F) :=
  c <- ne signal_0 (lit 0) ;;
  q <- div signal_diff signal_0 ;;
  numer <- where_ c q (lit 1) ;;
  c' <- ne starting_states (lit 0) ;;
  q' <- div output_diff starting_states ;;
  denom <- where_ (truthy (astype_int c')) q' (lit 1) ;;
  r <- div numer denom ;;
  Ok (absolute r).

Definition compute_precision
    (starting_states steady_states signal_0 signal_1 : ndarray F)
    : py (ndarray F) :=
  signal_diff <- sub signal_1 signal_0 ;;
  output_diff <- sub steady_states starting_states ;;
  calculate_precision_core output_diff starting_states signal_diff signal_0.

Definition calculate_sensitivity_core
    (output_diff starting_states signal_diff signal_0 : ndarray F)
    : py (ndarray F) :=
  c <- ne starting_states (lit 0) ;;
  c' <- ne output_diff (lit 0) ;;
  od <- where_ c' output_diff (scalar nan) ;;
  q <- div od starting_states ;;
  numer <- where_ (truthy (astype_int c)) q (scalar inf) ;;
  c'' <- ne signal_0 (lit 0) ;;
  sd <- div signal_diff signal_0 ;;
  r <- div numer sd ;;
  where_ c'' (absolute r) (scalar inf).

Definition compute_sensitivity (signal_idx : option Z)
    (starting_states peaks : ndarray F) : py (pyval F) :=
  match signal_idx with
  | None => Ok PyNone
  | Some idx =>
      signal_1 <- getitem peaks idx ;;
      signal_0 <- getitem starting_states idx ;;
      output_diff <- sub peaks starting_states ;;
      signal_diff <- sub signal_1 signal_0 ;;
      r <- calculate_sensitivity_core
             output_diff starting_states signal_diff signal_0 ;;
      Ok (Arr r)
  end.

Definition compute_sensitivity2
    (starting_states minv maxv signal_1 signal_0 : ndarray F)
    : py (ndarray F) :=
  output_diff <- sub maxv minv ;;
  signal_diff <- sub signal_1 signal_0 ;;
  calculate_sensitivity_core output_diff starting_states signal_diff signal_0.

Definition compute_sensitivity_simple
    (starting_states peaks signal_factor : ndarray F) : py (ndarray F) :=
  c <- ne starting_states (lit 0) ;;
  d <- sub peaks starting_states ;;
  q <- div d starting_states ;;
  numer <- where_ (truthy (astype_int c)) q (scalar inf) ;;
  r <- div numer signal_factor ;;
  Ok (absolute r).

Definition compute_rmse (data : ndarray F) (ref_circuit_data : option (ndarray F))
    : py (ndarray F) :=
  match ref_circuit_data with
  | None =>
      n <- tuple_get (shape_tuple (shape_of data)) 0 ;;
      Ok (zeros_column n)
  | Some ref =>
      n1 <- tuple_last (shape_tuple (shape_of data)) ;;
      n2 <- tuple_last (shape_tuple (shape_of ref)) ;;
      let t_max := Nat.min n1 n2 in
      a <- take_columns data t_max ;;
      b <- take_columns ref t_max ;;
      d <- sub a b ;;
      m <- mean_axis1 (square d) ;;
      Ok (map1 fsqrt m)
  end.

(** The mask of the items outside the 1% band around the steady state. *)
Definition is_data_outside_stst (data steady_states : ndarray F)
    : py (ndarray bool) :=
  let perc_settling_time := scalar (fdiv (of_Z 1) (of_Z 100)) in
  m <- mul steady_states perc_settling_time ;;
  hi <- add steady_states m ;;
  above <- gt data hi ;;
  m' <- mul steady_states perc_settling_time ;;
  lo <- sub steady_states m' ;;
  below <- lt data lo ;;
  lift2 orb above below.

(** [signal_time] may be [None], which the subtraction refuses. *)
Definition compute_step_response_times
    (data t steady_states : ndarray F) (signal_time : option F)
    : py (ndarray F) :=
  mask <- is_data_outside_stst data steady_states ;;
  w <- mul_mask t mask ;;
  mx <- max_last w ;;
  let tpre := reshape_column mx in
  later <- gt t tpre ;;
  t_stable <- mul_mask t later ;;
  c <- ne t_stable (lit 0) ;;
  t_stable' <- where_ c t_stable (scalar inf) ;;
  tstop <- min_last t_stable' ;;
  c' <- ne tstop (lit 0) ;;
  d <- match signal_time with
       | Some s => sub tstop (scalar s)
       | None => Raise TypeError
       end ;;
  response_times <- where_ c' d (scalar inf) ;;
  Ok response_times.

End Timeseries.

Section Analytics.
Context {F : Type} `{Numeric F}.

(** [np.where(m)[0]]: for every true item, in row-major order, its index
    along the first axis.  An array of shape [()] has no first axis
    ([ValueError], "Calling nonzero on 0d arrays is not allowed"). *)
Definition where_first (m : ndarray bool) : py (list nat) :=
  match shape_of m with
  | Sh0 => Raise ValueError
  | Sh1 n => Ok (filter (item m 0) (seq 0 n))
  | Sh2 r c =>
      Ok (flat_map (fun i => map (fun _ => i) (filter (item m i) (seq 0 c)))
            (seq 0 r))
  end.

(** [list(map(labels.__getitem__, idxs))]. *)
Fixpoint labels_at (labels : list string) (idxs : list nat) : py (list string) :=
  match idxs with
  | [] => Ok []
  | i :: rest =>
      match nth_error labels i with
      | Some s => fmap (cons s) (labels_at labels rest)
      | None => Raise IndexError
      end
  end.

(** The name of a metric relative to the signal species [s_idx]. *)
Definition metric_name (single : bool) (base : string) (s_idx : nat) : string :=
  if single then base
  else (base ++ "_wrt_species-" ++ str_of_nat s_idx)%string.

(** The body of the loop over the signal species. *)
Definition signal_analytics (data t : ndarray F) (signal_time : option F)
    (single : bool) (initial_steady_states steady_states peaks : ndarray F)
    (analytics : dict F) (s_idx : nat) : py (dict F) :=
  let p_name := metric_name single "precision" s_idx in
  let r_name := metric_name single "response_time" s_idx in
  let s_name := metric_name single "sensitivity" s_idx in
  signal_0 <- getitem initial_steady_states (Z.of_nat s_idx) ;;
  signal_1 <- getitem peaks (Z.of_nat s_idx) ;;
  p <- compute_precision initial_steady_states steady_states signal_0 signal_1 ;;
  let analytics := dict_set analytics p_name (Arr p) in
  n_t <- py_len t ;;
  n_data <- tuple_get (shape_tuple (shape_of data)) 1 ;;
  let t_end := Nat.min n_t n_data in
  data' <- take_columns data t_end ;;
  t' <- take_first t t_end ;;
  column_steady <- expand_last steady_states ;;
  r <- compute_step_response_times data' t' column_steady signal_time ;;
  let analytics := dict_set analytics r_name (Arr r) in
  s <- compute_sensitivity (Some (Z.of_nat s_idx)) initial_steady_states peaks ;;
  Ok (dict_set analytics s_name s).

Fixpoint for_each {A S : Type} (body : S -> A -> py S) (l : list A) (s : S)
    : py S :=
  match l with
  | [] => Ok s
  | x :: rest => s' <- body s x ;; for_each body rest s'
  end.

Definition generate_base_analytics (data : option (ndarray F)) (t : ndarray F)
    (labels : list string) (signal_onehot : option (ndarray F))
    (signal_time : option F) (ref_circuit_data : option (ndarray F))
    (include_deriv : bool) : py (dict F) :=
  signal_idxs <- match signal_onehot with
                 | None => Ok None
                 | Some onehot =>
                     m <- lift2 feqb onehot (lit 1) ;;
                     fmap (@Some _) (where_first m)
                 end ;;
  match data with
  | None => Ok []
  | Some data =>
      let analytics : dict F := [] in
      initial_steady_states <- column data 0 ;;
      let analytics :=
        dict_set analytics "initial_steady_states" (Arr initial_steady_states) in
      max_amount <- max_axis1 data ;;
      let analytics := dict_set analytics "max_amount" (Arr max_amount) in
      min_amount <- min_axis1 data ;;
      let analytics := dict_set analytics "min_amount" (Arr min_amount) in
      steady_states <- last_column data ;;
      let analytics := dict_set analytics "steady_states" (Arr steady_states) in
      rmse <- compute_rmse data ref_circuit_data ;;
      let analytics := dict_set analytics "RMSE" (Arr (squeeze rmse)) in
      first_derivative <- compute_derivative data ;;
      let analytics :=
        if include_deriv
        then dict_set analytics "first_derivative" (Arr first_derivative)
        else analytics in
      fold_change <- compute_fold_change initial_steady_states steady_states ;;
      let analytics := dict_set analytics "fold_change" (Arr fold_change) in
      let o_initial := new_obj [] initial_steady_states in
      let o_max := new_obj [o_initial] max_amount in
      let o_min := new_obj [o_initial; o_max] min_amount in
      let o_steady := new_obj [o_initial; o_max; o_min] steady_states in
      peaks <- compute_peaks o_initial o_steady o_max o_min ;;
      overshoot <- compute_overshoot steady_states peaks ;;
      let analytics := dict_set analytics "overshoot" (Arr overshoot) in
      match signal_idxs with
      | None => Ok analytics
      | Some idxs =>
          _ <- labels_at labels idxs ;;
          for_each
            (signal_analytics data t signal_time (length idxs =? 1)
               initial_steady_states steady_states peaks)
            idxs analytics
      end
  end.

(** The trajectory is given with the species along either axis; it is
    turned so that they are along the first. *)
Definition generate_analytics (data time : ndarray F) (labels : list string)
    (ref_circuit_data signal_onehot : option (ndarray F))
    (signal_time : option F) : py (dict F) :=
  n <- tuple_get (shape_tuple (shape_of data)) 0 ;;
  data <- (if negb (n =? length labels) then
             species_axis <- tuple_index (shape_tuple (shape_of data))
                               (length labels) ;;
             swapaxes0 data species_axis
           else Ok data) ;;
  generate_base_analytics (Some data) time labels signal_onehot signal_time
    ref_circuit_data false.

End Analytics.

(** ** More of timeseries.py *)

(** *** Negation and logarithm

    [fneg] is the unary minus; [flog10] is [jnp.log10], whose values depend
    on the mathematical library: the properties below hold for every such
    function. *)
Class Elementary (F : Type) : Type := {
  fneg : F -> F;
  flog10 : F -> F
}.

(** In an IEEE format the unary minus flips the sign; the logarithm is
    left to the library. *)
Definition ieee_elementary (log10 : spec_float -> spec_float)
    : Elementary spec_float :=
  {| fneg := SFopp; flog10 := log10 |}.

(** In exact arithmetic the logarithm of 0 is [-infinity] and that of a
    negative number is NaN. *)
Definition xlog10 (x : Exact.xreal) : Exact.xreal :=
  match x with
  | Exact.Fin a =>
      if Exact.Reqb a 0 then Exact.NInf
      else if Exact.Rltb a 0 then Exact.NaN
      else Exact.Fin (ln a / ln 10)
  | Exact.PInf => Exact.PInf
  | Exact.NInf | Exact.NaN => Exact.NaN
  end.

Definition exact_elementary : Elementary Exact.xreal :=
  {| fneg := Exact.xopp; flog10 := xlog10 |}.

(** *** Signs and infinities *)

(** What is not a finite number: the two infinities and NaN. *)
Definition unbounded {F : Type} `{Numeric F} (x : F) : bool :=
  negb (fltb (fabs x) inf).

(** The conventions of IEEE 754 on the sign of a result. *)
Class SignLaws (F : Type) `{Numeric F} : Prop := {
  inf_not_negative : fltb inf (of_Z 0) = false;
  sqrt_not_negative : forall x : F, fltb (fsqrt x) (of_Z 0) = false
}.

(** The conventions of IEEE 754 on zero, the infinities and NaN. *)
Class InfinityLaws (F : Type) `{Numeric F} : Prop := {
  div_zero_unbounded :
    forall x p : F, feqb p (of_Z 0) = true -> unbounded (fdiv x p) = true;
  sub_unbounded :
    forall x y : F, unbounded y = true -> unbounded (fsub x y) = true;
  zero_mul_unbounded :
    forall p y : F, feqb p (of_Z 0) = true -> unbounded y = true ->
      fmul p y = nan;
  mul_nan_r : forall x : F, fmul x nan = nan
}.

(** *** Indexing and reducing along the first axis *)

(** [a.ndim]. *)
Definition ndim {A : Type} (a : ndarray A) : nat :=
  length (shape_tuple (shape_of a)).

(** [a[i, j]] for an integer [i] and a [j] that is an integer or [None],
    which adds an axis of length 1. *)
Definition getitem2 {A : Type} (a : ndarray A) (i : Z) (j : option Z)
    : py (ndarray A) :=
  match shape_of a, j with
  | Sh0, _ => Raise IndexError
  | Sh1 n, Some _ => Raise IndexError
  | Sh1 n, None =>
      k <- axis_index n i ;;
      Ok {| shape_of := Sh1 1; item := fun _ _ => item a 0 k |}
  | Sh2 r c, Some j =>
      k <- axis_index r i ;;
      l <- axis_index c j ;;
      Ok (scalar (item a k l))
  | Sh2 r c, None =>
      k <- axis_index r i ;;
      Ok {| shape_of := Sh2 1 c; item := fun _ l => item a k l |}
  end.

(** The items of a column, from the first row to the last. *)
Definition column_items {A : Type} (a : ndarray A) (j : nat) : list A :=
  map (fun i => item a i j) (seq 0 (rows (shape_of a))).

(** A reduction along [axis=0]. *)
Definition reduce_first {A B : Type} (f : list A -> B) (needs_items : bool)
    (a : ndarray A) : py (ndarray B) :=
  match shape_of a with
  | Sh0 => Raise AxisError
  | Sh1 n =>
      if needs_items && (n =? 0) then Raise ValueError
      else Ok (scalar (f (row_items a 0)))
  | Sh2 r c =>
      if needs_items && (r =? 0) then Raise ValueError
      else Ok {| shape_of := Sh1 c; item := fun _ j => f (column_items a j) |}
  end.

Section MoreTimeseries.
Context {F : Type} `{Numeric F} `{Elementary F}.

(** [a.max(axis=0)] and [a.min(axis=0)]. *)
Definition max_axis0 (a : ndarray F) : py (ndarray F) :=
  reduce_first (fold1 fmax2) true a.
Definition min_axis0 (a : ndarray F) : py (ndarray F) :=
  reduce_first (fold1 fmin2) true a.

(** [s] may be [None], which [jnp.log10] refuses. *)
Definition calculate_adaptation (s : pyval F) (p : ndarray F)
    (alpha s_center p_center : F) : py (ndarray F) :=
  match s with
  | PyNone => Raise TypeError
  | Arr s =>
      let s_log := map1 flog10 s in
      let p_log := map1 flog10 p in
      ds <- sub s_log (scalar s_center) ;;
      ws <- mul (scalar alpha) (square ds) ;;
      dp <- sub p_log (scalar p_center) ;;
      total <- add ws (square dp) ;;
      a <- add (map1 fneg total) (lit 1000) ;;
      above <- gt a (scalar (fneg inf)) ;;
      below <- lt a (scalar inf) ;;
      finite <- lift2 andb above below ;;
      where_ finite a (scalar nan)
  end.

(** The default values of [alpha], [s_center] and [p_center]: 3, 7
    and 7.5. *)
Definition calculate_adaptation_default (s : pyval F) (p : ndarray F)
    : py (ndarray F) :=
  calculate_adaptation s p (of_Z 3) (of_Z 7) (fdiv (of_Z 15) (of_Z 2)).

Definition compute_adaptability_full (ys_steady ys_signal : ndarray F)
    (idx_sig : option Z) (use_sensitivity_func1 : bool)
    : py (ndarray F * pyval F * ndarray F) :=
  s <- (if use_sensitivity_func1 then
          steady_last <- getitem ys_steady (-1) ;;
          signal_last <- getitem ys_signal (-1) ;;
          maxa <- max_axis0 ys_signal ;;
          mina <- min_axis0 ys_signal ;;
          let o_initial := new_obj [] steady_last in
          let o_final := new_obj [o_initial] signal_last in
          let o_max := new_obj [o_initial; o_final] maxa in
          let o_min := new_obj [o_initial; o_final; o_max] mina in
          peaks <- compute_peaks o_initial o_final o_max o_min ;;
          starting_states <- getitem ys_steady (-1) ;;
          compute_sensitivity idx_sig starting_states peaks
        else
          starting_states <- getitem ys_steady (-1) ;;
          minv <- min_axis0 ys_signal ;;
          maxv <- max_axis0 ys_signal ;;
          signal_0 <- getitem2 ys_steady (-1) idx_sig ;;
          signal_1 <- getitem2 ys_signal 0 idx_sig ;;
          r <- compute_sensitivity2 starting_states minv maxv signal_1 signal_0 ;;
          Ok (Arr r)) ;;
  starting_states <- getitem ys_steady (-1) ;;
  steady_states <- getitem ys_signal (-1) ;;
  signal_0 <- getitem2 ys_steady (-1) idx_sig ;;
  signal_1 <- getitem2 ys_signal 0 idx_sig ;;
  p <- compute_precision starting_states steady_states signal_0 signal_1 ;;
  a <- calculate_adaptation_default s p ;;
  Ok (a, s, p).

(** [sp_prod(s, p)]; its other two parameters are not used. *)
Definition sp_prod (s p : ndarray F) : py (ndarray F) :=
  s_lin <- div (lit 1) p ;;
  d <- sub s s_lin ;;
  m <- mul p d ;;
  mul s m.

End MoreTimeseries.

(** *** Dictionaries of analytics *)

(** What a function that reads dictionaries can raise besides the
    exceptions of [py]. *)
Inductive failure : Type :=
| Exn (e : exn)
| KeyError (k : string)
| AttributeError.

Inductive outcome (A : Type) : Type :=
| Done (a : A)
| Failed (f : failure).

Arguments Done {A} a.
Arguments Failed {A} f.

Definition bind_outcome {A B : Type} (m : outcome A) (k : A -> outcome B)
    : outcome B :=
  match m with
  | Done a => k a
  | Failed f => Failed f
  end.

Definition of_py {A : Type} (m : py A) : outcome A :=
  match m with
  | Ok a => Done a
  | Raise e => Failed (Exn e)
  end.

Declare Scope outcome_scope.
Delimit Scope outcome_scope with outcome.
Notation "x <~ m ;; k" := (bind_outcome m (fun x => k))
  (at level 61, m at next level, right associativity) : outcome_scope.
Open Scope outcome_scope.

Section DifferencesRatios.
Context {F : Type} `{Numeric F}.

(** The two suffixes, constants of the module [naming]. *)
Variables DIFF_KEY RATIO_KEY : string.

(** [d[k]]. *)
Definition lookup (d : dict F) (k : string) : outcome (pyval F) :=
  match dict_get d k with
  | Some v => Done v
  | None => Failed (KeyError k)
  end.

(** [v.ndim], which [None] does not have. *)
Definition attr_ndim (v : pyval F) : outcome nat :=
  match v with
  | Arr a => Done (ndim a)
  | PyNone => Failed AttributeError
  end.

(** A value as the argument of a function of [jax.numpy], which refuses
    [None]. *)
Definition as_array (v : pyval F) : outcome (ndarray F) :=
  match v with
  | Arr a => Done a
  | PyNone => Failed (Exn TypeError)
  end.

(** [jnp.subtract(a, r)] and
    [jnp.where(r != 0, jnp.divide(a, r), np.inf)]. *)
Definition difference (a r : ndarray F) : py (ndarray F) := sub a r.

Definition ratio (a r : ndarray F) : py (ndarray F) :=
  c <- ne r (lit 0) ;;
  q <- div a r ;;
  where_ c q (scalar inf).

(** The body of the loop over the keys of [ref_analytics]. *)
Definition differences_ratios_of (analytics ref_analytics : dict F)
    (acc : dict F * dict F) (k : string) : outcome (dict F * dict F) :=
  let '(differences, ratios) := acc in
  rv <~ lookup ref_analytics k ;;
  rn <~ attr_ndim rv ;;
  both <~ (if 1 <? rn then
             av <~ lookup analytics k ;;
             an <~ attr_ndim av ;;
             Done (1 <? an)
           else Done false) ;;
  if both : bool then
    rv <~ lookup ref_analytics k ;;
    r <~ as_array rv ;;
    n_ref <~ of_py (tuple_get (shape_tuple (shape_of r)) 1) ;;
    av <~ lookup analytics k ;;
    a <~ as_array av ;;
    n <~ of_py (tuple_get (shape_tuple (shape_of a)) 1) ;;
    let t_end := Nat.min n_ref n in
    a' <~ of_py (take_columns a t_end) ;;
    r' <~ of_py (take_columns r t_end) ;;
    d <~ of_py (difference a' r') ;;
    let differences := dict_set differences (k ++ DIFF_KEY) (Arr d) in
    q <~ of_py (ratio a' r') ;;
    Done (differences, dict_set ratios (k ++ RATIO_KEY) (Arr q))
  else
    av <~ lookup analytics k ;;
    a <~ as_array av ;;
    rv <~ lookup ref_analytics k ;;
    r <~ as_array rv ;;
    d <~ of_py (difference a r) ;;
    let differences := dict_set differences (k ++ DIFF_KEY) (Arr d) in
    q <~ of_py (ratio a r) ;;
    Done (differences, dict_set ratios (k ++ RATIO_KEY) (Arr q)).

Fixpoint for_each_key {S : Type} (body : S -> string -> outcome S)
    (keys : list string) (s : S) : outcome S :=
  match keys with
  | [] => Done s
  | k :: rest => s' <~ body s k ;; for_each_key body rest s'
  end.

Definition generate_differences_ratios (analytics ref_analytics : dict F)
    : outcome (dict F * dict F) :=
  for_each_key (differences_ratios_of analytics ref_analytics)
    (map fst ref_analytics) ([], []).

End DifferencesRatios.

(** * The wording of the claims

    These definitions follow the wording of the specification; the theorems
    compare them with what the source functions compute. *)

Section Wording.
Context {F : Type} `{Numeric F}.

(** Sensitivity: "if [initial == 0], numerator is forced to [+infinity]; if
    [output_diff == 0] with nonzero [initial], numerator is [NaN]". *)
Definition sensitivity_numerator (initial peak : F) : F :=
  if feqb initial (of_Z 0) then inf
  else if feqb (fsub peak initial) (of_Z 0) then nan
  else fdiv (fsub peak initial) initial.

(** "If [signal_initial == 0], the whole ratio is [+infinity]", and
    otherwise the absolute value of the relative output change over the
    relative signal change. *)
Definition sensitivity_wording (initial peak signal_initial signal_peak : F) : F :=
  if feqb signal_initial (of_Z 0) then inf
  else fabs (fdiv (sensitivity_numerator initial peak)
               (fdiv (fsub signal_peak signal_initial) signal_initial)).

(** Precision: "[signal_initial == 0]: numerator forced to 1" and
    "[output_initial == 0]: denominator forced to 1". *)
Definition precision_numerator (signal_initial signal_peak : F) : F :=
  if feqb signal_initial (of_Z 0) then of_Z 1
  else fdiv (fsub signal_peak signal_initial) signal_initial.

Definition precision_denominator (output_initial output_peak : F) : F :=
  if feqb output_initial (of_Z 0) then of_Z 1
  else fdiv (fsub output_peak output_initial) output_initial.

Definition precision_wording
    (output_initial output_peak signal_initial signal_peak : F) : F :=
  fabs (fdiv (precision_numerator signal_initial signal_peak)
          (precision_denominator output_initial output_peak)).

(** Root-mean-square error of two rows over their first [n] items: the
    square root of the mean of the squares of their differences, the mean
    being the one of the library. *)
Definition rmse_wording (n : nat) (x y : nat -> F) : F :=
  fsqrt (fmean (map (fun j => fmul (fsub (x j) (y j)) (fsub (x j) (y j)))
                  (seq 0 n))).

End Wording.

(** The keys of the two boundary metrics. *)
Definition boundary_key (k : string) : Prop :=
  k = "initial_steady_states"%string \/ k = "steady_states"%string.

Section Settling.
Context {F : Type} `{Numeric F}.

(** A sample is outside the band when it is above the steady state plus 1%
    of it or below the steady state minus 1% of it. *)
Definition outside_band (x s : F) : bool :=
  fltb (fadd s (fmul s (fdiv (of_Z 1) (of_Z 100)))) x
  || fltb x (fsub s (fmul s (fdiv (of_Z 1) (of_Z 100)))).

(** [t_pre]: the greatest of the sample times, each multiplied by 1 when
    its sample is outside the band and by 0 when it is inside. *)
Definition t_pre (t x : nat -> F) (s : F) (n : nat) : F :=
  fold1 fmax2
    (map (fun j => fmul (t j) (of_bool (outside_band (x j) s))) (seq 0 n)).

(** [t_stop]: the least of the sample times, each multiplied by 1 when it
    is later than [t_pre] and by 0 when it is not, and replaced by
    [+infinity] when that product is zero. *)
Definition t_stop (t : nat -> F) (tpre : F) (n : nat) : F :=
  fold1 fmin2
    (map (fun j =>
            if feqb (fmul (t j) (of_bool (fltb tpre (t j)))) (of_Z 0)
            then inf
            else fmul (t j) (of_bool (fltb tpre (t j))))
       (seq 0 n)).

End Settling.

Section RoundTrip.
Context {F : Type} `{Numeric F}.

(** [eqconstant_to_rates] followed by [rates_to_eqconstant]. *)
Definition round_trip (eqconstants k_f : ndarray F) : py (ndarray F) :=
  rates <- eqconstant_to_rates eqconstants k_f ;;
  rates_to_eqconstant (fst rates) (snd rates).

End RoundTrip.

(** An IEEE number other than the zeros, the infinities and NaN. *)
Definition finite_nonzero (x : spec_float) : bool :=
  match x with
  | S754_finite _ _ _ => true
  | _ => false
  end.

(** * Concrete inputs, in IEEE binary64 *)

Module Data.

Definition b64 (z : Z) : spec_float := IEEE.ieee_of_Z 53 1024 z.

Definition vec (l : list Z) : ndarray spec_float :=
  vector S754_nan (map b64 l).

Definition mat (l : list (list Z)) : ndarray spec_float :=
  matrix S754_nan (map (map b64) l).

Section Binary64.
#[local] Existing Instance IEEE.binary64.

(** The trajectory of the specification's example: one species, five
    samples. *)
Definition one_species : ndarray spec_float := mat [[1; 2; 3; 2; 1]]%Z.

(** What [generate_base_analytics] computes for the peaks and the
    overshoot of a trajectory, from the first metrics on. *)
Definition peak_metrics (data : ndarray spec_float)
    : py (list (string * list spec_float)) :=
  initial_steady_states <- column data 0 ;;
  max_amount <- max_axis1 data ;;
  min_amount <- min_axis1 data ;;
  steady_states <- last_column data ;;
  let o_initial := new_obj [] initial_steady_states in
  let o_max := new_obj [o_initial] max_amount in
  let o_min := new_obj [o_initial; o_max] min_amount in
  let o_steady := new_obj [o_initial; o_max; o_min] steady_states in
  peaks <- compute_peaks o_initial o_steady o_max o_min ;;
  overshoot <- compute_overshoot steady_states peaks ;;
  Ok [("initial_steady_states", to_list initial_steady_states);
      ("steady_states", to_list steady_states);
      ("max_amount", to_list max_amount);
      ("min_amount", to_list min_amount);
      ("peak", to_list peaks);
      ("overshoot", to_list overshoot)]%string.

(** The same species twice, which [generate_analytics] accepts. *)
Definition two_species : ndarray spec_float :=
  mat [[1; 2; 3; 2; 1]; [1; 2; 3; 2; 1]]%Z.

(** The items of a metric. *)
Definition metric (d : dict spec_float) (k : string)
    : option (list spec_float) :=
  match dict_get d k with
  | Some (Arr a) => Some (to_list a)
  | _ => None
  end.

(** A trajectory that stays on its steady state. *)
Definition flat : ndarray spec_float := mat [[1; 1; 1]]%Z.

(** Two species: the first is the signal, the second starts at 0. *)
Definition starting : ndarray spec_float := vec [2; 0]%Z.
Definition steady : ndarray spec_float := vec [3; 5]%Z.
Definition peaks : ndarray spec_float := vec [4; 5]%Z.

(** Two species, four samples, and a reference of three samples. *)
Definition trajectory : ndarray spec_float := mat [[5; 3; 1; 1]; [0; 2; 2; 2]]%Z.
Definition reference : ndarray spec_float := mat [[5; 4; 1]; [0; 1; 2]]%Z.
Definition times : ndarray spec_float := vec [0; 1; 2; 3]%Z.
Definition steady_column : ndarray spec_float := mat [[1]; [2]]%Z.

(** The metrics of the two species as the objects [compute_peaks] takes. *)
Definition o_initial : pyobj spec_float := new_obj [] starting.
Definition o_max : pyobj spec_float := new_obj [o_initial] peaks.
Definition o_min : pyobj spec_float := new_obj [o_initial; o_max] starting.
Definition o_steady : pyobj spec_float :=
  new_obj [o_initial; o_max; o_min] steady.

(** Two species, one sample. *)
Definition one_sample : ndarray spec_float := mat [[7]; [8]]%Z.

(** Three species along the second axis; with four labels no axis fits. *)
Definition sideways : ndarray spec_float := mat [[1; 2; 3]; [2; 2; 5]]%Z.

End Binary64.

End Data.

(** * Further concrete inputs *)

Module MoreData.
Import Data.

(** Whether a function on dictionaries returned. *)
Definition returned_value {A : Type} (o : outcome A) : bool :=
  match o with
  | Done _ => true
  | Failed _ => false
  end.

(** Whether a function returned rather than raised. *)
Definition py_returned {A : Type} (m : py A) : bool :=
  match m with
  | Ok _ => true
  | Raise _ => false
  end.

(** Two suffixes to stand for [DIFF_KEY] and [RATIO_KEY]. *)
Definition diff_suffix : string := "_diff".
Definition ratio_suffix : string := "_ratio".

(** The metrics of a circuit and of its reference: one metric of one axis
    and one of two axes, the reference being one sample shorter. *)
Definition measured : dict spec_float :=
  [("overshoot", Arr (vec [3; 5]%Z)); ("first_derivative", Arr trajectory)]%string.

Definition baseline : dict spec_float :=
  [("overshoot", Arr (vec [2; 0]%Z)); ("first_derivative", Arr reference)]%string.

(** The metrics of a circuit without the derivative. *)
Definition measured_partly : dict spec_float :=
  [("overshoot", Arr (vec [3; 5]%Z))]%string.

(** Sensitivity and precision of two species; the second precision is 0. *)
Definition sensitivities : ndarray spec_float := vec [2; 3]%Z.
Definition precisions : ndarray spec_float := vec [4; 0]%Z.

(** The same in exact arithmetic, and two trajectories with the samples
    along the first axis: one sample before the signal, two after it. *)
Definition xvec (l : list Z) : ndarray Exact.xreal :=
  vector Exact.NaN (map (fun z => Exact.Fin (IZR z)) l).

Definition xmat (l : list (list Z)) : ndarray Exact.xreal :=
  matrix Exact.NaN (map (map (fun z => Exact.Fin (IZR z))) l).

Definition before_signal : ndarray Exact.xreal := xmat [[1; 2]]%Z.
Definition after_signal : ndarray Exact.xreal := xmat [[2; 2]; [3; 1]]%Z.

End MoreData.

(** * Properties *)

(** ** The element types *)

Module IEEEFacts.
Import IEEE.

Lemma nan_div (prec emax : Z) (x : spec_float) :
  SFdiv prec emax S754_nan x = S754_nan.
Proof. reflexivity. Qed.

(** Only the two zeros compare equal to zero. *)
Lemma eqb_finite_nonzero (x : spec_float) (s : bool) (m : positive) (e : Z) :
  SFeqb x (S754_finite s m e) = true -> SFeqb x (S754_zero false) = false.
Proof.
  destruct x as [sx|sx| |sx mx ex]; unfold SFeqb; simpl.
  - destruct s; discriminate.
  - destruct sx; discriminate.
  - discriminate.
  - destruct sx; reflexivity.
Qed.

Lemma abs_not_below_zero (x : spec_float) :
  SFltb (SFabs x) (S754_zero false) = false.
Proof. destruct x as [sx|sx| |sx mx ex]; reflexivity. Qed.

Lemma binary64_laws : @NumericLaws spec_float binary64.
Proof.
  split; intros; try reflexivity.
  - revert H. apply eqb_finite_nonzero.
  - apply abs_not_below_zero.
Qed.

Lemma binary32_laws : @NumericLaws spec_float binary32.
Proof.
  split; intros; try reflexivity.
  - revert H. apply eqb_finite_nonzero.
  - apply abs_not_below_zero.
Qed.

End IEEEFacts.

Module ExactFacts.
Import Exact.

Lemma Reqb_refl (a : R) : Reqb a a = true.
Proof. unfold Reqb. destruct (Req_dec_T a a); congruence. Qed.

Lemma Reqb_neq (a b : R) : a <> b -> Reqb a b = false.
Proof. unfold Reqb. destruct (Req_dec_T a b); congruence. Qed.

Lemma Rltb_lt (a b : R) : (a < b)%R -> Rltb a b = true.
Proof. unfold Rltb. destruct (Rlt_dec a b); tauto. Qed.

Lemma Reqb_true (a b : R) : Reqb a b = true -> a = b.
Proof. unfold Reqb. destruct (Req_dec_T a b); congruence. Qed.

Lemma laws : @NumericLaws xreal numeric.
Proof.
  split; simpl.
  - reflexivity.
  - rewrite Reqb_neq by lra. unfold signed_inf. now rewrite Rltb_lt by lra.
  - reflexivity.
  - apply Reqb_refl.
  - intros [a| | |]; simpl; try discriminate.
    intros E. apply Reqb_true in E. apply Reqb_neq. lra.
  - intros [a| | |]; simpl; try reflexivity.
    unfold Rltb. destruct (Rlt_dec (Rabs a) 0) as [L|_]; [|reflexivity].
    pose proof (Rabs_pos a). lra.
Qed.

End ExactFacts.

(** ** Broadcasting *)

Lemma bdim_same (n : nat) : bdim n n = Some n.
Proof. unfold bdim. now rewrite Nat.eqb_refl. Qed.

Lemma bdim_1_r (n : nat) : bdim n 1 = Some n.
Proof. unfold bdim. destruct (Nat.eqb_spec n 1); [congruence | reflexivity]. Qed.

Lemma bdim_1_l (n : nat) : bdim 1 n = Some n.
Proof.
  unfold bdim. destruct (Nat.eqb_spec 1 n); [congruence | reflexivity].
Qed.

Create Rewrite HintDb bdims.
#[local] Hint Rewrite bdim_same bdim_1_l bdim_1_r : bdims.

Lemma bidx_lt (n i : nat) : i < n -> bidx n i = i.
Proof. unfold bidx. destruct (Nat.eqb_spec n 1); lia. Qed.

(** Reading through a broadcast result and then through an operand is
    reading through the operand. *)
Lemma bidx_bdim_l (n m k i : nat) :
  bdim n m = Some k -> bidx n (bidx k i) = bidx n i.
Proof.
  unfold bdim, bidx. intros E.
  destruct (Nat.eqb_spec n 1); [reflexivity|].
  assert (k = n) as ->
    by (destruct (Nat.eqb_spec n m), (Nat.eqb_spec m 1); congruence).
  destruct (Nat.eqb_spec n 1); congruence.
Qed.

Lemma bidx_bdim_r (n m k i : nat) :
  bdim n m = Some k -> bidx m (bidx k i) = bidx m i.
Proof.
  unfold bdim, bidx. intros E.
  destruct (Nat.eqb_spec m 1); [reflexivity|].
  assert (k = m) as ->
    by (destruct (Nat.eqb_spec n m), (Nat.eqb_spec n 1); congruence).
  destruct (Nat.eqb_spec m 1); congruence.
Qed.

Lemma bidx_idem (n i : nat) : bidx n (bidx n i) = bidx n i.
Proof. unfold bidx. destruct (n =? 1); reflexivity. Qed.

Lemma bshape_rows_l (s1 s2 s : shape) (i : nat) :
  bshape s1 s2 = Some s -> bidx (rows s1) (bidx (rows s) i) = bidx (rows s1) i.
Proof.
  destruct s1 as [|n|r1 c1], s2 as [|m|r2 c2]; simpl; intros E;
    try (inversion E; subst; simpl; now rewrite ?bidx_idem);
    try (destruct (bdim _ _) eqn:D in E; inversion E; subst; simpl;
         now rewrite ?bidx_idem).
  destruct (bdim r1 r2) eqn:D1; [|discriminate].
  destruct (bdim c1 c2) eqn:D2; [|discriminate].
  inversion E; subst; simpl. eapply bidx_bdim_l; eassumption.
Qed.

Lemma bshape_cols_l (s1 s2 s : shape) (j : nat) :
  bshape s1 s2 = Some s -> bidx (cols s1) (bidx (cols s) j) = bidx (cols s1) j.
Proof.
  destruct s1 as [|n|r1 c1], s2 as [|m|r2 c2]; simpl; intros E;
    try (inversion E; subst; simpl; now rewrite ?bidx_idem);
    try (destruct (bdim _ _) eqn:D in E; inversion E; subst; simpl;
         first [ eapply bidx_bdim_l; eassumption
               | eapply bidx_bdim_r; eassumption ]).
  destruct (bdim r1 r2) eqn:D1; [|discriminate].
  destruct (bdim c1 c2) eqn:D2; [|discriminate].
  inversion E; subst; simpl. eapply bidx_bdim_l; eassumption.
Qed.

Lemma bshape_rows_r (s1 s2 s : shape) (i : nat) :
  bshape s1 s2 = Some s -> bidx (rows s2) (bidx (rows s) i) = bidx (rows s2) i.
Proof.
  destruct s1 as [|n|r1 c1], s2 as [|m|r2 c2]; simpl; intros E;
    try (inversion E; subst; simpl; now rewrite ?bidx_idem);
    try (destruct (bdim _ _) eqn:D in E; inversion E; subst; simpl;
         now rewrite ?bidx_idem).
  destruct (bdim r1 r2) eqn:D1; [|discriminate].
  destruct (bdim c1 c2) eqn:D2; [|discriminate].
  inversion E; subst; simpl. eapply bidx_bdim_r; eassumption.
Qed.

Lemma bshape_cols_r (s1 s2 s : shape) (j : nat) :
  bshape s1 s2 = Some s -> bidx (cols s2) (bidx (cols s) j) = bidx (cols s2) j.
Proof.
  destruct s1 as [|n|r1 c1], s2 as [|m|r2 c2]; simpl; intros E;
    try (inversion E; subst; simpl; now rewrite ?bidx_idem);
    try (destruct (bdim _ _) eqn:D in E; inversion E; subst; simpl;
         first [ eapply bidx_bdim_r; eassumption
               | eapply bidx_bdim_l; eassumption ]).
  destruct (bdim r1 r2) eqn:D1; [|discriminate].
  destruct (bdim c1 c2) eqn:D2; [|discriminate].
  inversion E; subst; simpl. eapply bidx_bdim_r; eassumption.
Qed.

(** An elementwise operation succeeds when the shapes are compatible, and
    then every item of the result, read with broadcasting, is the operation
    on the items of the operands read with broadcasting. *)
Lemma lift2_spec {A B C : Type} (f : A -> B -> C)
    (a : ndarray A) (b : ndarray B) (s : shape) :
  bshape (shape_of a) (shape_of b) = Some s ->
  exists r, lift2 f a b = Ok r /\ shape_of r = s /\
    forall i j, bitem r i j = f (bitem a i j) (bitem b i j).
Proof.
  intros E. unfold lift2. rewrite E. eexists. split; [reflexivity|].
  split; [reflexivity|]. intros i j. unfold bitem at 1. cbn [shape_of item].
  unfold bitem.
  now rewrite (bshape_rows_l _ _ i E), (bshape_cols_l _ _ j E),
    (bshape_rows_r _ _ i E), (bshape_cols_r _ _ j E).
Qed.

Lemma where_spec {A : Type} (c : ndarray bool) (x y : ndarray A)
    (s1 s : shape) :
  bshape (shape_of c) (shape_of x) = Some s1 ->
  bshape s1 (shape_of y) = Some s ->
  exists r, where_ c x y = Ok r /\ shape_of r = s /\
    forall i j, bitem r i j = if bitem c i j then bitem x i j else bitem y i j.
Proof.
  intros E1 E2. unfold where_. rewrite E1, E2. eexists.
  split; [reflexivity|]. split; [reflexivity|]. intros i j.
  unfold bitem at 1. cbn [shape_of item]. unfold bitem.
  rewrite <- (bshape_rows_l _ _ (bidx (rows s) i) E1).
  rewrite <- (bshape_cols_l _ _ (bidx (cols s) j) E1).
  rewrite <- (bshape_rows_r _ _ (bidx (rows s) i) E1).
  rewrite <- (bshape_cols_r _ _ (bidx (cols s) j) E1).
  rewrite (bshape_rows_l _ _ i E2), (bshape_cols_l _ _ j E2).
  rewrite (bshape_rows_r _ _ i E2), (bshape_cols_r _ _ j E2).
  rewrite (bshape_rows_l _ _ i E1), (bshape_cols_l _ _ j E1).
  now rewrite (bshape_rows_r _ _ i E1), (bshape_cols_r _ _ j E1).
Qed.

Lemma bitem_map1 {A B : Type} (f : A -> B) (a : ndarray A) (i j : nat) :
  bitem (map1 f a) i j = f (bitem a i j).
Proof. reflexivity. Qed.

Lemma bitem_scalar {A : Type} (x : A) (i j : nat) : bitem (scalar x) i j = x.
Proof. reflexivity. Qed.

(** The items of a vector are read as they are. *)
Lemma bitem_vector {A : Type} (a : ndarray A) (n i k : nat) :
  shape_of a = Sh1 n -> i < n -> bitem a k i = item a 0 i.
Proof.
  intros E Hi. unfold bitem. rewrite E. cbn [rows cols].
  now rewrite (bidx_lt Hi).
Qed.

Lemma bitem_matrix {A : Type} (a : ndarray A) (r c i j : nat) :
  shape_of a = Sh2 r c -> i < r -> j < c -> bitem a i j = item a i j.
Proof.
  intros E Hi Hj. unfold bitem. rewrite E. cbn [rows cols].
  now rewrite (bidx_lt Hi), (bidx_lt Hj).
Qed.

Lemma bitem_shape0 {A : Type} (a : ndarray A) (i j : nat) :
  shape_of a = Sh0 -> bitem a i j = item a 0 0.
Proof. intros E. unfold bitem. now rewrite E. Qed.

Lemma truthy_astype_int (m : ndarray bool) (i j : nat) :
  bitem (truthy (astype_int m)) i j = bitem m i j.
Proof. unfold bitem. cbn. now destruct (item m _ _). Qed.

(** Solves [bshape s1 s2 = Some ?s] for shapes that are known. *)
Ltac shapes :=
  cbn [shape_of scalar map1 lit truthy astype_int absolute square ones_like];
  repeat match goal with
         | E : shape_of ?a = _ |- context [shape_of ?a] => rewrite E
         end;
  cbn [bshape option_map];
  autorewrite with bdims;
  reflexivity.

(** Runs the first operation of a program whose shapes are known, naming
    the result, its shape and its items. *)
Ltac step :=
  lazymatch goal with
  | |- context [bind (lift2 ?f ?a ?b) _] =>
      let r := fresh "r" in
      let E := fresh "E" in
      let S := fresh "S" in
      let I := fresh "I" in
      edestruct (lift2_spec f a b) as (r & E & S & I);
      [ shapes | rewrite E; cbn [bind]; clear E ]
  | |- context [bind (where_ ?c ?x ?y) _] =>
      let r := fresh "r" in
      let E := fresh "E" in
      let S := fresh "S" in
      let I := fresh "I" in
      edestruct (where_spec c x y) as (r & E & S & I);
      [ shapes | shapes | rewrite E; cbn [bind]; clear E ]
  end.

Ltac last_step :=
  lazymatch goal with
  | |- context [lift2 ?f ?a ?b] =>
      let r := fresh "r" in
      let E := fresh "E" in
      let S := fresh "S" in
      let I := fresh "I" in
      edestruct (lift2_spec f a b) as (r & E & S & I);
      [ shapes | rewrite E; clear E ]
  | |- context [where_ ?c ?x ?y] =>
      let r := fresh "r" in
      let E := fresh "E" in
      let S := fresh "S" in
      let I := fresh "I" in
      edestruct (where_spec c x y) as (r & E & S & I);
      [ shapes | shapes | rewrite E; clear E ]
  end.

(** Rewrites the items of every intermediate result down to the items of
    the inputs, read with broadcasting. *)
Ltac items :=
  repeat first
    [ rewrite bitem_map1
    | rewrite bitem_scalar
    | rewrite truthy_astype_int
    | progress unfold absolute, square, ones_like
    | match goal with
      | I : forall i j, bitem ?r i j = _ |- context [bitem ?r _ _] =>
          rewrite I
      end ].

(** For an index [i] in range ([Hi : i < n]): states the goal on items read
    with broadcasting, runs [items], and reads the inputs directly again. *)
Ltac vector_items Hi :=
  cbn [absolute square map1 item];
  repeat match goal with
         | S : shape_of ?r = Sh1 _ |- context [item ?r 0 _] =>
             rewrite <- (@bitem_vector _ r _ _ 0 S Hi)
         | S : shape_of ?r = Sh0 |- context [item ?r 0 0] =>
             rewrite <- (@bitem_shape0 _ r 0 0 S)
         end;
  items;
  repeat match goal with
         | S : shape_of ?a = Sh1 _ |- context [bitem ?a _ _] =>
             rewrite (@bitem_vector _ a _ _ _ S Hi)
         | S : shape_of ?a = Sh0 |- context [bitem ?a _ _] =>
             rewrite (@bitem_shape0 _ a _ _ S)
         end.

(** Closes [exists r, Ok r' = Ok r /\ shape_of r = s /\ _] up to the items. *)
Ltac returned :=
  eexists; split; [reflexivity|]; split; [shapes|].

Lemma axis_index_in_range (n : nat) (i : Z) :
  (0 <= i < Z.of_nat n)%Z -> axis_index n i = Ok (Z.to_nat i).
Proof.
  intros Hi. unfold axis_index.
  destruct (Z.leb_spec 0 i); [|lia]. destruct (Z.ltb_spec i (Z.of_nat n)); [|lia].
  reflexivity.
Qed.

Lemma getitem_vector {A : Type} (a : ndarray A) (n : nat) (i : Z) :
  shape_of a = Sh1 n -> (0 <= i < Z.of_nat n)%Z ->
  getitem a i = Ok (scalar (item a 0 (Z.to_nat i))).
Proof.
  intros E Hi. unfold getitem. rewrite E, (axis_index_in_range _ Hi).
  reflexivity.
Qed.

Lemma bitem_column {A : Type} (a : ndarray A) (r i j : nat) :
  shape_of a = Sh2 r 1 -> i < r -> bitem a i j = item a i 0.
Proof.
  intros E Hi. unfold bitem. rewrite E. cbn [rows cols].
  now rewrite (bidx_lt Hi).
Qed.

(** ** Precision and sensitivity *)

Section Guards.
Context {F : Type} `{NumericLaws F}.

Lemma calculate_precision_core_items
    (output_diff starting_states signal_diff signal_0 : ndarray F) (n : nat) :
  shape_of output_diff = Sh1 n -> shape_of starting_states = Sh1 n ->
  shape_of signal_diff = Sh0 -> shape_of signal_0 = Sh0 ->
  exists r,
    calculate_precision_core output_diff starting_states signal_diff signal_0
      = Ok r /\
    shape_of r = Sh1 n /\
    forall i, i < n ->
      item r 0 i =
        fabs (fdiv
                (if feqb (item signal_0 0 0) (of_Z 0) then of_Z 1
                 else fdiv (item signal_diff 0 0) (item signal_0 0 0))
                (if feqb (item starting_states 0 i) (of_Z 0) then of_Z 1
                 else fdiv (item output_diff 0 i) (item starting_states 0 i))).
Proof.
  intros So Ss Sd S0.
  unfold calculate_precision_core, ne, div, lit.
  do 7 step. returned.
  intros i Hi. vector_items Hi.
  destruct (feqb (item signal_0 0 0) (of_Z 0));
    destruct (feqb (item starting_states 0 i) (of_Z 0)); reflexivity.
Qed.

(** C4.  For per-species vectors of starting and steady states and a
    scalar signal before and after, [compute_precision] returns, for every
    species, the absolute value of the numerator over the denominator, where
    the numerator is forced to 1 when the signal starts at 0 (and is the
    relative change of the signal otherwise) and the denominator is forced
    to 1 when the species starts at 0 (and is its relative change
    otherwise). *)
Theorem compute_precision_guards
    (starting_states steady_states signal_0 signal_1 : ndarray F) (n : nat) :
  shape_of starting_states = Sh1 n -> shape_of steady_states = Sh1 n ->
  shape_of signal_0 = Sh0 -> shape_of signal_1 = Sh0 ->
  exists r,
    compute_precision starting_states steady_states signal_0 signal_1 = Ok r /\
    shape_of r = Sh1 n /\
    forall i, i < n ->
      item r 0 i =
        precision_wording (item starting_states 0 i) (item steady_states 0 i)
          (item signal_0 0 0) (item signal_1 0 0).
Proof.
  intros Ss St S0 S1. unfold compute_precision, sub.
  do 2 step.
  edestruct (@calculate_precision_core_items) as (p & E & Sp & Ip);
    [ | | | | rewrite E ]; try eassumption.
  exists p. split; [reflexivity|]. split; [exact Sp|].
  intros i Hi. rewrite (Ip i Hi). vector_items Hi.
  reflexivity.
Qed.

Lemma calculate_sensitivity_core_items
    (output_diff starting_states signal_diff signal_0 : ndarray F) (n : nat) :
  shape_of output_diff = Sh1 n -> shape_of starting_states = Sh1 n ->
  shape_of signal_diff = Sh0 -> shape_of signal_0 = Sh0 ->
  exists r,
    calculate_sensitivity_core output_diff starting_states signal_diff signal_0
      = Ok r /\
    shape_of r = Sh1 n /\
    forall i, i < n ->
      item r 0 i =
        if feqb (item signal_0 0 0) (of_Z 0) then inf
        else fabs (fdiv
                     (if feqb (item starting_states 0 i) (of_Z 0) then inf
                      else if feqb (item output_diff 0 i) (of_Z 0) then nan
                      else fdiv (item output_diff 0 i)
                             (item starting_states 0 i))
                     (fdiv (item signal_diff 0 0) (item signal_0 0 0))).
Proof.
  intros So Ss Sd S0.
  unfold calculate_sensitivity_core, ne, div, lit.
  do 8 step. last_step. returned.
  intros i Hi. vector_items Hi.
  destruct (feqb (item signal_0 0 0) (of_Z 0)); [reflexivity|].
  destruct (feqb (item starting_states 0 i) (of_Z 0)); [reflexivity|].
  destruct (feqb (item output_diff 0 i) (of_Z 0)); cbn [negb];
    now rewrite ?nan_div_l.
Qed.

(** C3.  For per-species vectors of starting states and peaks and the index
    of the signal species, [compute_sensitivity] returns, for every species:
    [+infinity] where the signal starts at 0, and otherwise the absolute
    value of the numerator over the relative change of the signal, where
    the numerator is [+infinity] when the species starts at 0, NaN when
    it starts elsewhere and does not change, and its relative change
    otherwise. *)
Theorem compute_sensitivity_guards
    (starting_states peaks : ndarray F) (n : nat) (signal_idx : Z) :
  shape_of starting_states = Sh1 n -> shape_of peaks = Sh1 n ->
  (0 <= signal_idx < Z.of_nat n)%Z ->
  exists r,
    compute_sensitivity (Some signal_idx) starting_states peaks = Ok (Arr r) /\
    shape_of r = Sh1 n /\
    forall i, i < n ->
      item r 0 i =
        sensitivity_wording (item starting_states 0 i) (item peaks 0 i)
          (item starting_states 0 (Z.to_nat signal_idx))
          (item peaks 0 (Z.to_nat signal_idx)).
Proof.
  intros Ss Sp Hidx. unfold compute_sensitivity, sub.
  rewrite (@getitem_vector _ _ _ _ Sp Hidx), (@getitem_vector _ _ _ _ Ss Hidx).
  cbn [bind]. do 2 step.
  edestruct (@calculate_sensitivity_core_items) as (q & E & Sq & Iq);
    [ | | | | rewrite E ]; try eassumption; try reflexivity.
  cbn [bind]. exists q. split; [reflexivity|]. split; [exact Sq|].
  intros i Hi. rewrite (Iq i Hi). cbn [scalar item]. vector_items Hi.
  reflexivity.
Qed.

End Guards.

(** ** Fold change *)

Section FoldChange.
Context {F : Type} `{NumericLaws F}.

(** Item by item, the fold change is the quotient unless the starting state
    is 0 or -1, and NaN there. *)
Lemma compute_fold_change_items
    (starting_states steady_states : ndarray F) (n : nat) :
  shape_of starting_states = Sh1 n -> shape_of steady_states = Sh1 n ->
  exists r,
    compute_fold_change starting_states steady_states = Ok r /\
    shape_of r = Sh1 n /\
    forall i, i < n ->
      item r 0 i =
        if feqb (item starting_states 0 i) (of_Z 0) then nan
        else if feqb (item starting_states 0 i) (of_Z (-1)) then nan
        else fdiv (item steady_states 0 i) (item starting_states 0 i).
Proof.
  intros Ss St. unfold compute_fold_change, ne, div, lit.
  do 5 step. returned.
  intros i Hi. vector_items Hi.
  destruct (feqb (item starting_states 0 i) (of_Z 0)); cbn [negb].
  - now rewrite neg1_eqb.
  - now destruct (feqb (item starting_states 0 i) (of_Z (-1))).
Qed.

(** C10.  [compute_fold_change] returns NaN wherever the starting state
    equals -1, as it does wherever the starting state equals 0: -1 is the
    value that stands for a zero baseline inside the function, so the two
    cannot be told apart in the result. *)
Theorem compute_fold_change_minus_one
    (starting_states steady_states : ndarray F) (n : nat) :
  shape_of starting_states = Sh1 n -> shape_of steady_states = Sh1 n ->
  exists r,
    compute_fold_change starting_states steady_states = Ok r /\
    shape_of r = Sh1 n /\
    forall i, i < n ->
      (feqb (item starting_states 0 i) (of_Z (-1)) = true -> item r 0 i = nan) /\
      (feqb (item starting_states 0 i) (of_Z 0) = true -> item r 0 i = nan).
Proof.
  intros Ss St.
  destruct (compute_fold_change_items _ _ Ss St) as (r & E & Sr & Ir).
  exists r. split; [exact E|]. split; [exact Sr|].
  intros i Hi. rewrite (Ir i Hi). split; intros E1.
  - now rewrite (eqb_neg1_nonzero _ E1), E1.
  - now rewrite E1.
Qed.

(** X2.  Item by item, [compute_fold_change] returns the steady state
    over the starting state where the starting state is neither 0 nor -1,
    and NaN where it is 0 or -1. *)
Theorem compute_fold_change_positions
    (starting_states steady_states : ndarray F) (n : nat) :
  shape_of starting_states = Sh1 n -> shape_of steady_states = Sh1 n ->
  exists r,
    compute_fold_change starting_states steady_states = Ok r /\
    shape_of r = Sh1 n /\
    forall i, i < n ->
      (feqb (item starting_states 0 i) (of_Z 0) = false ->
       feqb (item starting_states 0 i) (of_Z (-1)) = false ->
       item r 0 i = fdiv (item steady_states 0 i) (item starting_states 0 i)) /\
      (feqb (item starting_states 0 i) (of_Z 0)
       || feqb (item starting_states 0 i) (of_Z (-1)) = true ->
       item r 0 i = nan).
Proof.
  intros Ss St.
  destruct (compute_fold_change_items _ _ Ss St) as (r & E & Sr & Ir).
  exists r. split; [exact E|]. split; [exact Sr|].
  intros i Hi. rewrite (Ir i Hi). split.
  - now intros -> ->.
  - destruct (feqb (item starting_states 0 i) (of_Z 0)); [reflexivity|].
    cbn [orb]. now intros ->.
Qed.

End FoldChange.

(** ** Peaks *)

Section Peaks.
Context {F : Type} `{Numeric F}.

(** The object that [jnp.where] returns is none of its arguments. *)
Lemma new_obj_is_not (a b c d : pyobj F) (x : ndarray F) :
  py_is (new_obj [a; b; c; d] x) d = false.
Proof.
  unfold py_is, new_obj, fresh_oid. cbn [oid map list_max fold_right].
  apply Nat.eqb_neq. lia.
Qed.

(** X1.  Item by item, [compute_peaks] returns the maximum where the
    steady state is above the starting state and the starting state is
    below the maximum, and the minimum everywhere else: the alternative
    under the test [peak is mina] is never the maximum. *)
Theorem compute_peaks_items
    (initial_steady_states final_steady_states maxa mina : pyobj F) (n : nat) :
  shape_of (arr initial_steady_states) = Sh1 n ->
  shape_of (arr final_steady_states) = Sh1 n ->
  shape_of (arr maxa) = Sh1 n -> shape_of (arr mina) = Sh1 n ->
  exists r,
    compute_peaks initial_steady_states final_steady_states maxa mina = Ok r /\
    shape_of r = Sh1 n /\
    forall i, i < n ->
      item r 0 i =
        if fltb (item (arr initial_steady_states) 0 i)
                (item (arr final_steady_states) 0 i)
           && fltb (item (arr initial_steady_states) 0 i) (item (arr maxa) 0 i)
        then item (arr maxa) 0 i
        else item (arr mina) 0 i.
Proof.
  intros Si Sf Sx Sm. unfold compute_peaks, gt, lt.
  do 2 step. rewrite new_obj_is_not. cbn [new_obj arr].
  step. last_step. returned.
  intros i Hi. vector_items Hi.
  destruct (fltb (item (arr initial_steady_states) 0 i)
              (item (arr final_steady_states) 0 i)); cbn [andb].
  - reflexivity.
  - now destruct (fltb _ _).
Qed.

End Peaks.

(** ** Overshoot *)

Section Overshoot.
Context {F : Type} `{NumericLaws F}.

(** X5.  The overshoot of every species is the absolute value of the peak
    minus the steady state, and is not below 0. *)
Theorem compute_overshoot_not_negative (steady_states peaks : ndarray F)
    (n : nat) :
  shape_of steady_states = Sh1 n -> shape_of peaks = Sh1 n ->
  exists r,
    compute_overshoot steady_states peaks = Ok r /\
    shape_of r = Sh1 n /\
    forall i, i < n ->
      item r 0 i = fabs (fsub (item peaks 0 i) (item steady_states 0 i)) /\
      fltb (item r 0 i) (of_Z 0) = false.
Proof.
  intros Ss Sp. unfold compute_overshoot, sub.
  step. returned.
  intros i Hi. cbn [absolute map1 item]. split.
  - vector_items Hi. reflexivity.
  - apply abs_not_negative.
Qed.

End Overshoot.

(** ** Reductions and reshaping *)

Lemma reduce_last_spec {A B : Type} (f : list A -> B) (needs_items : bool)
    (a : ndarray A) (r c : nat) :
  shape_of a = Sh2 r c -> needs_items && (c =? 0) = false ->
  exists res,
    reduce_last f needs_items a = Ok res /\
    shape_of res = Sh1 r /\
    forall k i, i < r -> bitem res k i = f (map (bitem a i) (seq 0 c)).
Proof.
  intros E Hc. unfold reduce_last. rewrite E, Hc.
  eexists. split; [reflexivity|]. split; [reflexivity|].
  intros k i Hi. unfold bitem at 1. cbn [shape_of rows cols item].
  rewrite (bidx_lt Hi). unfold row_items. rewrite E. cbn [cols].
  f_equal. apply map_ext_in. intros j Hj. apply in_seq in Hj.
  symmetry. apply (bitem_matrix _ E); lia.
Qed.

Lemma needs_items_positive (c : nat) : 0 < c -> true && (c =? 0) = false.
Proof. intros Hc. now destruct c; [lia|]. Qed.

Lemma reshape_column_vector {A : Type} (a : ndarray A) (n : nat) :
  shape_of a = Sh1 n ->
  shape_of (reshape_column a) = Sh2 n 1 /\
  forall i j, bitem (reshape_column a) i j = bitem a 0 i.
Proof.
  intros E. unfold reshape_column, bitem. rewrite E.
  split; reflexivity.
Qed.

(** A minimum or maximum of a row is one of its items. *)
Lemma fold_left_pick {A : Type} (f : A -> A -> A) (l : list A) (x : A) :
  (forall u v, f u v = u \/ f u v = v) -> In (fold_left f l x) (x :: l).
Proof.
  intros Hf. revert x. induction l as [|y l IH]; intros x.
  - now left.
  - cbn [fold_left]. destruct (IH (f x y)) as [E|E].
    + destruct (Hf x y) as [E'|E']; rewrite <- E, E'; [now left|right; now left].
    + right. now right.
Qed.

Section SettlingFacts.
Context {F : Type} `{Numeric F}.

Lemma fmin2_pick (u v : F) : fmin2 u v = u \/ fmin2 u v = v.
Proof.
  unfold fmin2. destruct (is_nan u); [now left|].
  destruct (is_nan v); [now right|]. destruct (fltb v u); [now right|now left].
Qed.

Lemma fold1_fmin2_in (l : list F) : l <> [] -> In (fold1 fmin2 l) l.
Proof.
  destruct l as [|x l]; [congruence|]. intros _. cbn [fold1].
  apply fold_left_pick, fmin2_pick.
Qed.

End SettlingFacts.

(** ** Response time *)

Section ResponseTime.
Context {F : Type} `{NumericLaws F}.

(** [t_stop] is never zero: a zero candidate was replaced by [+infinity]. *)
Lemma t_stop_nonzero (t : nat -> F) (tpre : F) (n : nat) :
  0 < n -> feqb (t_stop t tpre n) (of_Z 0) = false.
Proof.
  intros Hn. unfold t_stop.
  match goal with
  | |- feqb (fold1 fmin2 ?l) _ = _ => assert (In (fold1 fmin2 l) l) as Hin
  end.
  { apply fold1_fmin2_in. destruct n; [lia|]. discriminate. }
  apply in_map_iff in Hin. destruct Hin as (j & <- & _).
  destruct (feqb (fmul (t j) (of_bool (fltb tpre (t j)))) (of_Z 0)) eqn:E.
  - apply inf_nonzero.
  - exact E.
Qed.

(** C5, as amended.  For a trajectory of [S] species and [T >= 1]
    samples, [T] sample times, a column of steady states and an onset
    time, the response time of every species is [t_stop] minus the onset
    time, with [t_pre] and [t_stop] as defined above: the [+infinity] of
    the final guard is never chosen, because [t_stop] is never zero. *)
Theorem compute_step_response_times_items
    (data t steady_states : ndarray F) (signal_time : F) (S T : nat) :
  shape_of data = Sh2 S T -> shape_of t = Sh1 T ->
  shape_of steady_states = Sh2 S 1 -> 0 < T ->
  exists r,
    compute_step_response_times data t steady_states (Some signal_time)
      = Ok r /\
    shape_of r = Sh1 S /\
    forall i, i < S ->
      item r 0 i =
        fsub (t_stop (item t 0)
                (t_pre (item t 0) (item data i) (item steady_states i 0) T) T)
          signal_time.
Proof.
  intros Sd St Ss HT.
  unfold compute_step_response_times, is_data_outside_stst,
    mul, add, sub, gt, lt, ne, mul_mask, max_last, min_last, lit.
  repeat step.
  edestruct (@reduce_last_spec) as (mx & E & Sm & Im);
    [ eassumption | exact (needs_items_positive HT)
    | rewrite E; cbn [bind]; clear E ].
  destruct (reshape_column_vector _ Sm) as (Sp & Ip).
  set (tpre := reshape_column mx) in *. clearbody tpre.
  repeat step.
  edestruct (@reduce_last_spec) as (tstop & E & Sq & Iq);
    [ eassumption | exact (needs_items_positive HT)
    | rewrite E; cbn [bind]; clear E ].
  repeat step. returned.
  intros i Hi.
  match goal with
  | S : shape_of ?r = Sh1 _ |- item ?r 0 _ = _ =>
      rewrite <- (@bitem_vector _ r _ _ 0 S Hi)
  end.
  items.
  assert (bitem tstop 0 i =
            t_stop (item t 0)
              (t_pre (item t 0) (item data i) (item steady_states i 0) T) T)
    as ->.
  { rewrite (Iq 0 i Hi). unfold t_stop. f_equal.
    apply map_ext_in. intros j Hj. apply in_seq in Hj.
    items. rewrite (Im 0 i Hi).
    match goal with
    | |- context [map (bitem ?w i) (seq 0 T)] =>
        assert (map (bitem w i) (seq 0 T) =
                  map (fun j => fmul (item t 0 j)
                                  (of_bool (outside_band (item data i j)
                                              (item steady_states i 0))))
                    (seq 0 T)) as ->
    end.
    { apply map_ext_in. intros k Hk. apply in_seq in Hk. items.
      rewrite (@bitem_vector _ t _ _ _ St) by lia.
      rewrite (@bitem_matrix _ data _ _ _ _ Sd) by lia.
      rewrite !(@bitem_column _ steady_states _ _ _ Ss) by lia.
      reflexivity. }
    rewrite (@bitem_vector _ t _ _ _ St) by lia.
    fold (t_pre (item t 0) (item data i) (item steady_states i 0) T).
    now destruct (feqb _ (of_Z 0)). }
  now rewrite (t_stop_nonzero _ _ HT).
Qed.

End ResponseTime.

(** ** Root-mean-square error *)

Section RMSE.
Context {F : Type} `{Numeric F}.

(** C7.  With no reference, [compute_rmse] returns zeros, one row per
    species and one column.  With a reference of as many species, it
    returns for every species the root-mean-square error of the species'
    row against the reference's, over the first [min T T'] samples, [T] and
    [T'] being the numbers of samples of the two. *)
Theorem compute_rmse_window (data : ndarray F) (S T : nat) :
  shape_of data = Sh2 S T ->
  (compute_rmse data None = Ok (zeros_column S) /\
   shape_of (zeros_column S) = Sh2 S 1 /\
   forall i j, item (zeros_column S) i j = of_Z 0) /\
  forall (ref : ndarray F) (T' : nat),
    shape_of ref = Sh2 S T' ->
    exists r,
      compute_rmse data (Some ref) = Ok r /\
      shape_of r = Sh1 S /\
      forall i, i < S ->
        item r 0 i = rmse_wording (Nat.min T T') (item data i) (item ref i).
Proof.
  intros Sd. split.
  - unfold compute_rmse. rewrite Sd. repeat split.
  - intros ref T' Sr. unfold compute_rmse, take_columns, sub, mean_axis1.
    rewrite Sd, Sr. cbn [shape_tuple tuple_last rev app bind].
    replace (Nat.min (Nat.min T T') T) with (Nat.min T T') by lia.
    replace (Nat.min (Nat.min T T') T') with (Nat.min T T') by lia.
    set (m := Nat.min T T').
    set (a := {| shape_of := Sh2 S m; item := item data |}).
    set (b := {| shape_of := Sh2 S m; item := item ref |}).
    assert (Sa : shape_of a = Sh2 S m) by reflexivity.
    assert (Sb : shape_of b = Sh2 S m) by reflexivity.
    step.
    unfold reduce_axis1.
    match goal with
    | E : shape_of ?d = Sh2 S m |- _ =>
        change (shape_of (square d)) with (shape_of d); rewrite E
    end.
    edestruct (@reduce_last_spec) as (mn & E & Sm & Im);
      [ | | rewrite E; cbn [bind]; clear E ]; [shapes | reflexivity |].
    returned.
    intros i Hi. cbn [map1 item].
    rewrite <- (@bitem_vector _ mn _ _ 0 Sm Hi), (Im 0 i Hi).
    unfold rmse_wording. do 2 f_equal.
    apply map_ext_in. intros j Hj. apply in_seq in Hj.
    items.
    rewrite (@bitem_matrix _ a _ _ _ _ Sa), (@bitem_matrix _ b _ _ _ _ Sb)
      by lia.
    reflexivity.
Qed.

End RMSE.

(** ** Derivative *)

Section Derivative.
Context {F : Type} `{NumericLaws F}.

(** X3.  With at most one sample the derivative is [+infinity]
    everywhere, in the shape of the data. *)
Theorem compute_derivative_one_sample (data : ndarray F) (r c : nat) :
  shape_of data = Sh2 r c -> c <= 1 ->
  exists d,
    compute_derivative data = Ok d /\
    shape_of d = Sh2 r c /\
    forall i j, i < r -> j < c -> item d i j = inf.
Proof.
  intros Sd Hc. unfold compute_derivative, mul. rewrite Sd.
  cbn [shape_tuple TIMEAXIS tuple_get nth_error bind].
  destruct (Nat.leb_spec c 1); [|lia].
  last_step. returned.
  intros i j Hi Hj.
  match goal with
  | S : shape_of ?d = Sh2 _ _ |- item ?d _ _ = _ =>
      rewrite <- (@bitem_matrix _ d _ _ _ _ S Hi Hj)
  end.
  items. apply one_mul_inf.
Qed.

(** X4.  With two samples or more, the gradient of every axis is taken:
    it is returned along the samples when there are two species or more,
    and [ValueError] is raised when there are fewer. *)
Theorem compute_derivative_gradient (data : ndarray F) (r c : nat) :
  shape_of data = Sh2 r c -> 2 <= c ->
  compute_derivative data =
    if r <? 2 then Raise ValueError
    else Ok {| shape_of := Sh2 r c;
               item := fun i j => gradient_line (item data i) c j |}.
Proof.
  intros Sd Hc. unfold compute_derivative, gradient_2d. rewrite Sd.
  cbn [shape_tuple TIMEAXIS tuple_get nth_error bind rows cols].
  destruct (Nat.leb_spec c 1); [lia|].
  destruct (Nat.ltb_spec r 2), (Nat.ltb_spec (Nat.min r c) 2);
    try lia; reflexivity.
Qed.

End Derivative.

(** ** Round trip of equilibrium constants and rates *)

Section RoundTripFacts.
Context {F : Type} `{Numeric F}.

Lemma round_trip_items (eqconstants k_f : ndarray F) (n : nat) :
  shape_of eqconstants = Sh1 n -> shape_of k_f = Sh0 ->
  exists r,
    round_trip eqconstants k_f = Ok r /\
    shape_of r = Sh1 n /\
    forall i, i < n ->
      item r 0 i =
        fdiv (fmul (item k_f 0 0) (of_Z 1))
          (fdiv (item k_f 0 0) (item eqconstants 0 i)).
Proof.
  intros Se Sk. unfold round_trip, eqconstant_to_rates, rates_to_eqconstant,
    div, mul.
  repeat step. cbn [fst snd]. repeat step. returned.
  intros i Hi. vector_items Hi. reflexivity.
Qed.

End RoundTripFacts.

Section RoundTripIEEE.
Variables prec emax : Z.

(** A forward rate that is a zero, an infinity or NaN gives NaN, whatever
    the equilibrium constant and whatever the number 1 of the format. *)
Lemma round_trip_rate_special (one k K : spec_float) :
  finite_nonzero k = false ->
  SFdiv prec emax (SFmul prec emax k one) (SFdiv prec emax k K) = S754_nan.
Proof.
  destruct k as [sk|sk| |sk mk ek]; cbn [finite_nonzero]; intros Hk;
    try discriminate Hk;
    destruct one as [s1|s1| |s1 m1 e1]; destruct K as [sK|sK| |sK mK eK];
    reflexivity.
Qed.

(** A finite forward rate other than zero returns a zero, an infinity or
    NaN as it was, sign included. *)
Lemma round_trip_constant_special (k K : spec_float) :
  finite_nonzero k = true -> finite_nonzero K = false ->
  SFdiv prec emax k (SFdiv prec emax k K) = K.
Proof.
  destruct k as [sk|sk| |sk mk ek]; cbn [finite_nonzero]; intros Hk;
    try discriminate Hk.
  destruct K as [sK|sK| |sK mK eK]; cbn [finite_nonzero]; intros HK;
    try discriminate HK; cbn; try reflexivity;
    now destruct sk, sK.
Qed.

(** C6, as amended.  In the IEEE arithmetic of any binary format, for a
    vector of equilibrium constants and a scalar forward rate, the round
    trip returns: NaN at every position when the forward rate is a zero,
    an infinity or NaN; and, when the forward rate is finite, not zero and
    unchanged by the multiplication by 1, the original equilibrium
    constant, sign included, at every position where it is a zero, an
    infinity or NaN.  Nothing is stated where both are finite and not
    zero: there the two divisions round, and the original is not returned
    in general. *)
Theorem round_trip_special_values (eqconstants : ndarray spec_float)
    (k_f : spec_float) (n : nat) :
  shape_of eqconstants = Sh1 n ->
  exists r,
    @round_trip _ (IEEE.numeric prec emax) eqconstants (scalar k_f) = Ok r /\
    shape_of r = Sh1 n /\
    forall i, i < n ->
      (finite_nonzero k_f = false -> item r 0 i = S754_nan) /\
      (finite_nonzero k_f = true ->
       SFmul prec emax k_f (IEEE.ieee_of_Z prec emax 1) = k_f ->
       finite_nonzero (item eqconstants 0 i) = false ->
       item r 0 i = item eqconstants 0 i).
Proof.
  intros Se.
  destruct (@round_trip_items _ (IEEE.numeric prec emax) eqconstants
              (scalar k_f) n Se eq_refl) as (r & E & Sr & Ir).
  exists r. split; [exact E|]. split; [exact Sr|].
  intros i Hi. rewrite (Ir i Hi). cbn [scalar item]. split.
  - intros Hk. now apply round_trip_rate_special.
  - intros Hk H1 HK.
    change (SFdiv prec emax (SFmul prec emax k_f (IEEE.ieee_of_Z prec emax 1))
              (SFdiv prec emax k_f (item eqconstants 0 i))
            = item eqconstants 0 i).
    rewrite H1. now apply round_trip_constant_special.
Qed.

End RoundTripIEEE.

(** ** The species axis *)

Section SpeciesAxis.
Context {F : Type} `{Numeric F}.

Lemma tuple_index_absent (tup : list nat) (x : nat) :
  ~ In x tup -> tuple_index tup x = Raise ValueError.
Proof.
  induction tup as [|n tup IH]; intros Hx; [reflexivity|].
  cbn [tuple_index]. destruct (Nat.eqb_spec n x) as [->|_].
  - exfalso. apply Hx. now left.
  - rewrite IH; [reflexivity|]. intros Hin. apply Hx. now right.
Qed.

(** C9.  [generate_analytics] on a trajectory of one or two axes, none of
    a length equal to the number of labels, raises [ValueError] and
    returns no analytics.  On a trajectory whose second axis alone has that
    length, the analytics are those of the trajectory with its two axes
    swapped, whose first axis has the length of the labels; a trajectory
    whose first axis has that length is analysed as it is. *)
Theorem generate_analytics_species_axis
    (data time : ndarray F) (labels : list string)
    (ref_circuit_data signal_onehot : option (ndarray F))
    (signal_time : option F) :
  (shape_of data <> Sh0 ->
   ~ In (length labels) (shape_tuple (shape_of data)) ->
   generate_analytics data time labels ref_circuit_data signal_onehot
     signal_time = Raise ValueError) /\
  (forall r c,
     shape_of data = Sh2 r c -> r <> length labels -> c = length labels ->
     let swapped :=
       {| shape_of := Sh2 c r; item := fun i j => item data j i |} in
     rows (shape_of swapped) = length labels /\
     generate_analytics data time labels ref_circuit_data signal_onehot
       signal_time =
     generate_base_analytics (Some swapped) time labels signal_onehot
       signal_time ref_circuit_data false) /\
  (forall r c,
     shape_of data = Sh2 r c -> r = length labels ->
     generate_analytics data time labels ref_circuit_data signal_onehot
       signal_time =
     generate_base_analytics (Some data) time labels signal_onehot
       signal_time ref_circuit_data false).
Proof.
  split; [|split].
  - intros Hs Hin. unfold generate_analytics.
    destruct (shape_of data) as [|n|r c] eqn:Sd; [congruence| |];
      cbn [shape_tuple] in Hin.
    + cbn [shape_tuple tuple_get nth_error bind].
      destruct (Nat.eqb_spec n (length labels)) as [E|_].
      * exfalso. apply Hin. now left.
      * cbn [negb]. now rewrite (@tuple_index_absent _ _ Hin).
    + cbn [shape_tuple tuple_get nth_error bind].
      destruct (Nat.eqb_spec r (length labels)) as [E|_].
      * exfalso. apply Hin. now left.
      * cbn [negb]. now rewrite (@tuple_index_absent _ _ Hin).
  - intros r c Sd Hr Hc. split; [exact Hc|].
    unfold generate_analytics, swapaxes0. rewrite Sd.
    cbn [shape_tuple tuple_get nth_error bind tuple_index].
    destruct (Nat.eqb_spec r (length labels)); [contradiction|].
    destruct (Nat.eqb_spec c (length labels)); [|contradiction].
    reflexivity.
  - intros r c Sd Hr. unfold generate_analytics. rewrite Sd.
    cbn [shape_tuple tuple_get nth_error bind].
    destruct (Nat.eqb_spec r (length labels)); [|contradiction].
    reflexivity.
Qed.

End SpeciesAxis.

(** ** The first and the last sample *)

Section Boundaries.
Context {F : Type} `{Numeric F}.

(** Setting a key leaves the other keys as they are. *)
Lemma dict_get_set_other (d : dict F) (k k' : string) (v : pyval F) :
  String.eqb k k' = false -> dict_get (dict_set d k v) k' = dict_get d k'.
Proof.
  intros Hk. induction d as [|[k0 v0] d IH]; cbn [dict_set dict_get].
  - now rewrite Hk.
  - destruct (String.eqb_spec k0 k) as [->|Hne]; cbn [dict_get].
    + now rewrite Hk.
    + now rewrite IH.
Qed.

Lemma metric_name_not_base (single : bool) (s_idx : nat) (base k : string) :
  String.eqb base k = false ->
  String.eqb (base ++ "_wrt_species-" ++ str_of_nat s_idx) k = false ->
  String.eqb (metric_name single base s_idx) k = false.
Proof. intros E1 E2. unfold metric_name. now destruct single. Qed.

(** The metrics of a signal species are stored under other keys than the
    two boundary metrics. *)
Lemma signal_analytics_keeps (data t : ndarray F) (signal_time : option F)
    (single : bool) (initial steady peaks : ndarray F)
    (analytics d : dict F) (s_idx : nat) (k : string) :
  boundary_key k ->
  signal_analytics data t signal_time single initial steady peaks analytics
    s_idx = Ok d ->
  dict_get d k = dict_get analytics k.
Proof.
  intros Hk E. unfold signal_analytics in E. cbv zeta in E.
  repeat match type of E with
         | bind ?m _ = Ok _ =>
             destruct m eqn:?; [cbn [bind] in E | discriminate E]
         end.
  injection E as <-.
  rewrite !dict_get_set_other; [reflexivity| | |];
    apply metric_name_not_base; destruct Hk as [-> | ->]; reflexivity.
Qed.

Lemma for_each_keeps {A : Type} (body : dict F -> A -> py (dict F))
    (l : list A) (k : string) :
  (forall s x s', body s x = Ok s' -> dict_get s' k = dict_get s k) ->
  forall s s', for_each body l s = Ok s' -> dict_get s' k = dict_get s k.
Proof.
  intros Hb. induction l as [|x l IH]; intros s s' E; cbn [for_each] in E.
  - now injection E as <-.
  - destruct (body s x) as [s1|] eqn:E1; [cbn [bind] in E|discriminate E].
    rewrite (IH _ _ E). now apply Hb with (x := x).
Qed.

(** X6.  Whenever [generate_base_analytics] returns, the trajectory has two
    axes and at least one sample, and the analytics hold under
    ["initial_steady_states"] the first column of the trajectory and under
    ["steady_states"] its last column, one item per species. *)
Theorem generate_base_analytics_boundaries
    (data t : ndarray F) (labels : list string)
    (signal_onehot : option (ndarray F)) (signal_time : option F)
    (ref_circuit_data : option (ndarray F)) (include_deriv : bool)
    (d : dict F) :
  generate_base_analytics (Some data) t labels signal_onehot signal_time
    ref_circuit_data include_deriv = Ok d ->
  exists r c,
    shape_of data = Sh2 r c /\ 0 < c /\
    dict_get d "initial_steady_states" =
      Some (Arr {| shape_of := Sh1 r; item := fun _ i => item data i 0 |}) /\
    dict_get d "steady_states" =
      Some (Arr {| shape_of := Sh1 r; item := fun _ i => item data i (c - 1) |}).
Proof.
  intros E. unfold generate_base_analytics in E. cbv zeta in E.
  match type of E with
  | bind ?m _ = Ok _ => destruct m as [idxs|] eqn:Ei; [cbn [bind] in E | discriminate E]
  end.
  unfold column, last_column in E.
  destruct (shape_of data) as [|n|r c] eqn:Sd; try discriminate E.
  exists r, c. split; [reflexivity|].
  destruct (Nat.ltb_spec 0 c) as [Hc|Hc]; [|discriminate E].
  split; [exact Hc|]. cbn [bind] in E.
  repeat match type of E with
         | bind ?m _ = Ok _ =>
             destruct m eqn:?; [cbn [bind] in E | discriminate E]
         end.
  match type of E with
  | match idxs with
    | Some l => _
    | None => Ok ?A
    end = Ok d =>
      assert (dict_get A "initial_steady_states" =
                Some (Arr {| shape_of := Sh1 r;
                             item := fun _ i => item data i 0 |}) /\
              dict_get A "steady_states" =
                Some (Arr {| shape_of := Sh1 r;
                             item := fun _ i => item data i (c - 1) |}))
        as [G1 G2] by (destruct include_deriv; split; reflexivity);
      set (analytics := A) in *; clearbody analytics
  end.
  destruct idxs as [l|].
  - destruct (labels_at labels l); [cbn [bind] in E | discriminate E].
    rewrite <- G1, <- G2. split.
    + eapply for_each_keeps; [|exact E].
      intros s x s'. apply signal_analytics_keeps. now left.
    + eapply for_each_keeps; [|exact E].
      intros s x s'. apply signal_analytics_keeps. now right.
  - injection E as <-. now split.
Qed.
End Boundaries.

(** ** Signs and infinities in the element types *)

Module IEEESigns.
Import IEEE.

Section Format.
Variables prec emax : Z.

Lemma round_not_below_zero (mx ex : Z) (lx : location) :
  SFltb (binary_round_aux prec emax false mx ex lx) (S754_zero false) = false.
Proof.
  unfold binary_round_aux.
  destruct (shr_fexp prec emax mx ex lx) as [mrs' e'].
  destruct (shr_fexp prec emax _ e' loc_Exact) as [mrs'' e''].
  destruct (shr_m mrs''); [reflexivity| |reflexivity].
  now destruct (e'' <=? emax - prec)%Z.
Qed.

Lemma sqrt_not_below_zero (x : spec_float) :
  SFltb (SFsqrt prec emax x) (S754_zero false) = false.
Proof.
  destruct x as [s|[|]| |[|] mx ex]; try reflexivity.
  unfold SFsqrt.
    destruct (SFsqrt_core_binary prec emax (Z.pos mx) ex) as [[mz ez] lz].
    apply round_not_below_zero.
Qed.

Lemma ieee_sign_laws : @SignLaws spec_float (numeric prec emax).
Proof.
  split.
  - reflexivity.
  - apply sqrt_not_below_zero.
Qed.

Lemma eqb_zero (p : spec_float) :
  SFeqb p (S754_zero false) = true -> exists s, p = S754_zero s.
Proof.
  destruct p as [s|s| |s m e]; unfold SFeqb; simpl; try discriminate.
  - intros _. now exists s.
  - now destruct s.
  - now destruct s.
Qed.

Lemma ieee_unbounded_cases (x : spec_float) :
  @unbounded _ (numeric prec emax) x = true ->
  x = S754_nan \/ exists s, x = S754_infinity s.
Proof.
  destruct x as [s|s| |s m e]; unfold unbounded; simpl.
  - discriminate.
  - intros _. right. now exists s.
  - now left.
  - discriminate.
Qed.

Lemma ieee_infinity_laws : @InfinityLaws spec_float (numeric prec emax).
Proof.
  split.
  - intros x p E. apply eqb_zero in E. destruct E as [s ->].
    destruct x as [sx|sx| |sx m e]; reflexivity.
  - intros x y U. apply ieee_unbounded_cases in U.
    destruct U as [->|[s ->]].
    + now destruct x.
    + destruct x as [sx|sx| |sx m e]; try reflexivity;
        destruct s; try destruct sx; reflexivity.
  - intros p y E U. apply eqb_zero in E. destruct E as [s ->].
    apply ieee_unbounded_cases in U. destruct U as [->|[s' ->]]; reflexivity.
  - intros x. now destruct x.
Qed.

End Format.
End IEEESigns.

Module ExactSigns.
Import Exact ExactFacts.

Lemma exact_sign_laws : @SignLaws xreal numeric.
Proof.
  split; simpl.
  - reflexivity.
  - intros [a| | |]; simpl; try reflexivity.
    destruct (Rltb a 0); [reflexivity|]. simpl.
    unfold Rltb. destruct (Rlt_dec (sqrt a) 0) as [L|_]; [|reflexivity].
    pose proof (sqrt_pos a). lra.
Qed.

Lemma exact_unbounded_cases (x : xreal) :
  @unbounded _ numeric x = true -> x = PInf \/ x = NInf \/ x = NaN.
Proof.
  destruct x as [a| | |]; unfold unbounded; simpl; auto.
  discriminate.
Qed.

Lemma exact_infinity_laws : @InfinityLaws xreal numeric.
Proof.
  split.
  - intros x p E. destruct p as [b| | |]; simpl in E; try discriminate.
    apply Reqb_true in E. subst b.
    destruct x as [a| | |]; unfold unbounded; simpl; try reflexivity.
    + rewrite Reqb_refl. destruct (Reqb a 0); [reflexivity|].
      unfold signed_inf. now destruct (Rltb 0 a).
    + now destruct (Rltb 0 0).
    + now destruct (Rltb 0 0).
  - intros x y U. apply exact_unbounded_cases in U.
    destruct U as [->|[->| ->]]; destruct x; reflexivity.
  - intros p y E U. destruct p as [b| | |]; simpl in E; try discriminate.
    apply Reqb_true in E. subst b.
    apply exact_unbounded_cases in U.
    destruct U as [->|[->| ->]]; simpl; try reflexivity; now rewrite Reqb_refl.
  - intros x. now destruct x.
Qed.

End ExactSigns.

(** ** Precision, sensitivity and error are not negative *)

Section Signs.
Context {F : Type} {N : Numeric F} {NL : @NumericLaws F N} {SL : @SignLaws F N}.

(** The items of the sensitivity, in the terms of the source. *)
Lemma compute_sensitivity_items
    (starting_states peaks : ndarray F) (n : nat) (signal_idx : Z) :
  shape_of starting_states = Sh1 n -> shape_of peaks = Sh1 n ->
  (0 <= signal_idx < Z.of_nat n)%Z ->
  exists r,
    compute_sensitivity (Some signal_idx) starting_states peaks = Ok (Arr r) /\
    shape_of r = Sh1 n /\
    forall i, i < n ->
      item r 0 i =
        let s0 := item starting_states 0 (Z.to_nat signal_idx) in
        let s1 := item peaks 0 (Z.to_nat signal_idx) in
        let d := fsub (item peaks 0 i) (item starting_states 0 i) in
        if feqb s0 (of_Z 0) then inf
        else fabs (fdiv
                     (if feqb (item starting_states 0 i) (of_Z 0) then inf
                      else if feqb d (of_Z 0) then nan
                      else fdiv d (item starting_states 0 i))
                     (fdiv (fsub s1 s0) s0)).
Proof.
  intros Ss Sp Hidx. unfold compute_sensitivity, sub.
  rewrite (@getitem_vector _ _ _ _ Sp Hidx), (@getitem_vector _ _ _ _ Ss Hidx).
  cbn [bind]. do 2 step.
  edestruct (@calculate_sensitivity_core_items F N NL) as (q & E & Sq & Iq);
    [ | | | | rewrite E ]; try eassumption; try reflexivity.
  cbn [bind]. exists q. split; [reflexivity|]. split; [exact Sq|].
  intros i Hi. rewrite (Iq i Hi). cbn [scalar item]. vector_items Hi.
  reflexivity.
Qed.

(** X7.  For per-species vectors and scalar signal values, no item of the
    precision that [compute_precision] returns is below 0. *)
Theorem compute_precision_not_negative
    (starting_states steady_states signal_0 signal_1 : ndarray F) (n : nat) :
  shape_of starting_states = Sh1 n -> shape_of steady_states = Sh1 n ->
  shape_of signal_0 = Sh0 -> shape_of signal_1 = Sh0 ->
  exists r,
    compute_precision starting_states steady_states signal_0 signal_1 = Ok r /\
    shape_of r = Sh1 n /\
    forall i, i < n -> fltb (item r 0 i) (of_Z 0) = false.
Proof.
  intros Ss St S0 S1. unfold compute_precision, sub.
  do 2 step.
  edestruct (@calculate_precision_core_items F N) as (p & E & Sp & Ip);
    [ | | | | rewrite E ]; try eassumption.
  exists p. split; [reflexivity|]. split; [exact Sp|].
  intros i Hi. rewrite (Ip i Hi). apply abs_not_negative.
Qed.

(** X8.  For per-species vectors and an index of the signal species in
    range, no item of the sensitivity that [compute_sensitivity] returns is
    below 0, whichever of its guards applies. *)
Theorem compute_sensitivity_not_negative
    (starting_states peaks : ndarray F) (n : nat) (signal_idx : Z) :
  shape_of starting_states = Sh1 n -> shape_of peaks = Sh1 n ->
  (0 <= signal_idx < Z.of_nat n)%Z ->
  exists r,
    compute_sensitivity (Some signal_idx) starting_states peaks = Ok (Arr r) /\
    shape_of r = Sh1 n /\
    forall i, i < n -> fltb (item r 0 i) (of_Z 0) = false.
Proof.
  intros Ss Sp Hidx.
  destruct (compute_sensitivity_items _ _ Ss Sp Hidx) as (r & E & Sr & Ir).
  exists r. split; [exact E|]. split; [exact Sr|].
  intros i Hi. rewrite (Ir i Hi). cbv zeta.
  destruct (feqb _ (of_Z 0)).
  - apply inf_not_negative.
  - apply abs_not_negative.
Qed.

(** X9.  For trajectories of two axes with as many species, no item of
    the error that [compute_rmse] returns is below 0. *)
Theorem compute_rmse_not_negative (data ref : ndarray F) (s t t' : nat) :
  shape_of data = Sh2 s t -> shape_of ref = Sh2 s t' ->
  exists r,
    compute_rmse data (Some ref) = Ok r /\
    shape_of r = Sh1 s /\
    forall i, i < s -> fltb (item r 0 i) (of_Z 0) = false.
Proof.
  intros Sd Sr. unfold compute_rmse, take_columns, sub, mean_axis1.
  rewrite Sd, Sr. cbn [shape_tuple tuple_last rev app bind].
  replace (Nat.min (Nat.min t t') t) with (Nat.min t t') by lia.
  replace (Nat.min (Nat.min t t') t') with (Nat.min t t') by lia.
  step. unfold reduce_axis1, reduce_last.
  change (shape_of (square r)) with (shape_of r). rewrite S.
  cbn [andb bind]. eexists. split; [reflexivity|]. split; [reflexivity|].
  intros i Hi. cbn [map1 item]. apply sqrt_not_negative.
Qed.

End Signs.

(** ** The variants of the sensitivity *)

Section Sensitivities.
Context {F : Type} {N : Numeric F} {NL : @NumericLaws F N}.

Lemma compute_sensitivity_simple_items
    (starting_states peaks signal_factor : ndarray F) (n : nat) :
  shape_of starting_states = Sh1 n -> shape_of peaks = Sh1 n ->
  shape_of signal_factor = Sh0 ->
  exists r,
    compute_sensitivity_simple starting_states peaks signal_factor = Ok r /\
    shape_of r = Sh1 n /\
    forall i, i < n ->
      item r 0 i =
        fabs (fdiv
                (if feqb (item starting_states 0 i) (of_Z 0) then inf
                 else fdiv (fsub (item peaks 0 i) (item starting_states 0 i))
                        (item starting_states 0 i))
                (item signal_factor 0 0)).
Proof.
  intros Ss Sp Sf. unfold compute_sensitivity_simple, ne, sub, div, lit.
  repeat step. returned.
  intros i Hi. vector_items Hi.
  now destruct (feqb (item starting_states 0 i) (of_Z 0)).
Qed.

(** X10.  Given the relative change of the signal as its factor,
    [compute_sensitivity_simple] returns what [compute_sensitivity] returns
    for every species that starts at 0 or whose peak differs from its
    start, provided the signal does not start at 0. *)
Theorem compute_sensitivity_simple_agrees
    (starting_states peaks : ndarray F) (n : nat) (signal_idx : Z) :
  shape_of starting_states = Sh1 n -> shape_of peaks = Sh1 n ->
  (0 <= signal_idx < Z.of_nat n)%Z ->
  let s0 := item starting_states 0 (Z.to_nat signal_idx) in
  let s1 := item peaks 0 (Z.to_nat signal_idx) in
  feqb s0 (of_Z 0) = false ->
  exists r r',
    compute_sensitivity (Some signal_idx) starting_states peaks = Ok (Arr r) /\
    compute_sensitivity_simple starting_states peaks
      (scalar (fdiv (fsub s1 s0) s0)) = Ok r' /\
    shape_of r = Sh1 n /\ shape_of r' = Sh1 n /\
    forall i, i < n ->
      feqb (item starting_states 0 i) (of_Z 0) = true \/
      feqb (fsub (item peaks 0 i) (item starting_states 0 i)) (of_Z 0) = false ->
      item r 0 i = item r' 0 i.
Proof.
  intros Ss Sp Hidx s0 s1 Hs0.
  destruct (compute_sensitivity_items _ _ Ss Sp Hidx) as (r & E & Sr & Ir).
  destruct (@compute_sensitivity_simple_items starting_states peaks
              (scalar (fdiv (fsub s1 s0) s0)) n Ss Sp eq_refl)
    as (r' & E' & Sr' & Ir').
  exists r, r'. repeat (split; [assumption|]).
  intros i Hi Hcase. rewrite (Ir i Hi), (Ir' i Hi). cbv zeta.
  fold s0. fold s1. rewrite Hs0. cbn [scalar item].
  destruct Hcase as [-> | E0]; [reflexivity|].
  rewrite E0. reflexivity.
Qed.

(** X11.  For per-species vectors of starting states, minima and maxima
    and a scalar signal before and after, [compute_sensitivity2] returns,
    for every species: [+infinity] where the signal starts at 0, and
    otherwise the absolute value of the numerator over the relative
    change of the signal, where the numerator is [+infinity] when the
    species starts at 0, NaN when its maximum equals its minimum, and the
    range [maxv - minv] over the starting state otherwise. *)
Theorem compute_sensitivity2_range
    (starting_states minv maxv signal_1 signal_0 : ndarray F) (n : nat) :
  shape_of starting_states = Sh1 n ->
  shape_of minv = Sh1 n -> shape_of maxv = Sh1 n ->
  shape_of signal_1 = Sh0 -> shape_of signal_0 = Sh0 ->
  exists r,
    compute_sensitivity2 starting_states minv maxv signal_1 signal_0 = Ok r /\
    shape_of r = Sh1 n /\
    forall i, i < n ->
      let range := fsub (item maxv 0 i) (item minv 0 i) in
      item r 0 i =
        if feqb (item signal_0 0 0) (of_Z 0) then inf
        else fabs (fdiv
                     (if feqb (item starting_states 0 i) (of_Z 0) then inf
                      else if feqb range (of_Z 0) then nan
                      else fdiv range (item starting_states 0 i))
                     (fdiv (fsub (item signal_1 0 0) (item signal_0 0 0))
                        (item signal_0 0 0))).
Proof.
  intros Ss Smin Smax S1 S0. unfold compute_sensitivity2, sub.
  do 2 step.
  edestruct (@calculate_sensitivity_core_items F N NL) as (q & E & Sq & Iq);
    [ | | | | rewrite E ]; try eassumption.
  exists q. split; [reflexivity|]. split; [exact Sq|].
  intros i Hi. rewrite (Iq i Hi). cbv zeta. vector_items Hi.
  reflexivity.
Qed.

End Sensitivities.

(** ** A signal without its onset time *)

Section NoSignalTime.
Context {F : Type} {N : Numeric F}.

(** Runs a program whose operations may each raise. *)
Ltac run :=
  repeat match goal with
         | |- context [bind ?m _] => destruct m; cbn [bind]
         end.

Lemma compute_step_response_times_no_time (data t steady_states : ndarray F) :
  exists e, compute_step_response_times data t steady_states None = Raise e.
Proof. unfold compute_step_response_times. run; eauto. Qed.

Lemma signal_analytics_no_time (data t : ndarray F) (single : bool)
    (initial_steady_states steady_states peaks : ndarray F)
    (analytics : dict F) (s_idx : nat) :
  exists e,
    signal_analytics data t None single initial_steady_states steady_states
      peaks analytics s_idx = Raise e.
Proof.
  unfold signal_analytics.
  repeat match goal with
         | |- context [bind (compute_step_response_times ?d ?t ?s None) _] =>
             destruct (compute_step_response_times_no_time d t s) as (e & ->);
             cbn [bind]
         | |- context [bind ?m _] => destruct m; cbn [bind]
         end; eauto.
Qed.

Lemma where_first_marked (onehot : ndarray F) (n i : nat) :
  shape_of onehot = Sh1 n -> i < n ->
  feqb (item onehot 0 i) (of_Z 1) = true ->
  exists m idxs,
    lift2 feqb onehot (lit 1) = Ok m /\ where_first m = Ok idxs /\ idxs <> [].
Proof.
  intros So Hi E1. unfold lit.
  edestruct (lift2_spec feqb onehot (scalar (of_Z 1))) as (m & E & Sm & Im);
    [shapes|].
  exists m. eexists. split; [exact E|]. unfold where_first. rewrite Sm.
  split; [reflexivity|]. intros Hnil.
  assert (Hin : In i (filter (item m 0) (seq 0 n))).
  { apply filter_In. split; [apply in_seq; lia|].
    rewrite <- (@bitem_vector _ m _ _ 0 Sm Hi), Im.
    now rewrite (@bitem_vector _ onehot _ _ _ So Hi), bitem_scalar. }
  rewrite Hnil in Hin. destruct Hin.
Qed.

(** X12.  With a species marked as the signal and no onset time of the
    signal ([signal_time] left at its default [None]), [generate_analytics]
    never returns: the response time subtracts the onset time, which
    raises when nothing earlier has. *)
Theorem generate_analytics_signal_without_time
    (data time : ndarray F) (labels : list string)
    (ref_circuit_data : option (ndarray F)) (onehot : ndarray F) (n i : nat) :
  shape_of onehot = Sh1 n -> i < n ->
  feqb (item onehot 0 i) (of_Z 1) = true ->
  exists e,
    generate_analytics data time labels ref_circuit_data (Some onehot) None
      = Raise e.
Proof.
  intros So Hi E1.
  destruct (where_first_marked _ So Hi E1) as (m & idxs & Em & Ew & Hne).
  unfold generate_analytics, generate_base_analytics.
  rewrite Em. cbn [bind]. rewrite Ew. cbn [fmap bind].
  destruct idxs as [|s_idx rest]; [congruence|]. cbn [for_each].
  repeat match goal with
         | |- context [bind (signal_analytics ?d ?t None ?b ?i ?s ?p ?a ?k) _] =>
             destruct (signal_analytics_no_time d t b i s p a k) as (e & ->);
             cbn [bind]
         | |- context [bind ?m _] => destruct m; cbn [bind]
         end; eauto.
Qed.

End NoSignalTime.

(** ** Adaptation *)

Section Adaptation.
Context {F : Type} {N : Numeric F} {NL : @NumericLaws F N} {EL : Elementary F}.

Lemma calculate_adaptation_items (s p : ndarray F)
    (alpha s_center p_center : F) (n : nat) :
  shape_of s = Sh1 n -> shape_of p = Sh1 n ->
  exists r,
    calculate_adaptation (Arr s) p alpha s_center p_center = Ok r /\
    shape_of r = Sh1 n /\
    forall i, i < n ->
      item r 0 i =
        let ds := fsub (flog10 (item s 0 i)) s_center in
        let dp := fsub (flog10 (item p 0 i)) p_center in
        let a :=
          fadd (fneg (fadd (fmul alpha (fmul ds ds)) (fmul dp dp)))
            (of_Z 1000) in
        if fltb (fneg inf) a && fltb a inf then a else nan.
Proof.
  intros Ss Sp. unfold calculate_adaptation, add, sub, mul, gt, lt, lit.
  repeat step. last_step. returned.
  intros i Hi. vector_items Hi. reflexivity.
Qed.

(** X13.  For per-species vectors of sensitivity and precision,
    [calculate_adaptation] returns one item per species, and no item is an
    infinity: each is NaN or lies strictly between [-infinity] and
    [+infinity], whatever [jnp.log10] returns. *)
Theorem calculate_adaptation_never_infinite (s p : ndarray F)
    (alpha s_center p_center : F) (n : nat) :
  shape_of s = Sh1 n -> shape_of p = Sh1 n ->
  exists r,
    calculate_adaptation (Arr s) p alpha s_center p_center = Ok r /\
    shape_of r = Sh1 n /\
    forall i, i < n ->
      item r 0 i = nan \/
      (fltb (fneg inf) (item r 0 i) = true /\ fltb (item r 0 i) inf = true).
Proof.
  intros Ss Sp.
  destruct (@calculate_adaptation_items _ _ alpha s_center p_center _ Ss Sp)
    as (r & E & Sr & Ir).
  exists r. split; [exact E|]. split; [exact Sr|].
  intros i Hi. rewrite (Ir i Hi). cbv zeta.
  destruct (fltb (fneg inf) _) eqn:E1; cbn [andb]; [|now left].
  destruct (fltb _ inf) eqn:E2; [|now left].
  right. now split.
Qed.

(** X14.  With no index of the signal species and the sensitivity
    computed from the peaks, [compute_adaptability_full] never returns:
    the sensitivity is then [None], which [jnp.log10] refuses when nothing
    earlier has raised. *)
Theorem compute_adaptability_full_no_signal (ys_steady ys_signal : ndarray F) :
  exists e, compute_adaptability_full ys_steady ys_signal None true = Raise e.
Proof.
  unfold compute_adaptability_full.
  match goal with
  | |- exists e, bind ?m _ = Raise e =>
      assert (Hs : (exists e, m = Raise e) \/ m = Ok PyNone)
  end.
  { unfold compute_sensitivity.
    repeat match goal with
           | |- context [bind ?m _] => destruct m; cbn [bind]
           end; eauto. }
  destruct Hs as [(e & ->) | ->]; cbn [bind]; [eauto|].
  unfold calculate_adaptation_default, calculate_adaptation.
  repeat match goal with
         | |- context [bind ?m _] => destruct m; cbn [bind]
         end; eauto.
Qed.

Lemma axis_index_last (n : nat) : 0 < n -> axis_index n (-1) = Ok (n - 1).
Proof.
  intros Hn. unfold axis_index. cbn [Z.leb Z.compare andb Z.ltb].
  destruct (Z.leb_spec (- Z.of_nat n) (-1)); [|lia].
  f_equal. lia.
Qed.

Lemma getitem_last (a : ndarray F) (r c : nat) :
  shape_of a = Sh2 r c -> 0 < r ->
  exists v, getitem a (-1) = Ok v /\ shape_of v = Sh1 c.
Proof.
  intros Sa Hr. unfold getitem. rewrite Sa, (@axis_index_last _ Hr).
  eexists. split; reflexivity.
Qed.

Lemma getitem2_scalar (a : ndarray F) (r c k : nat) (i j : Z) :
  shape_of a = Sh2 r c -> axis_index r i = Ok k -> (0 <= j < Z.of_nat c)%Z ->
  exists v, getitem2 a i (Some j) = Ok v /\ shape_of v = Sh0.
Proof.
  intros Sa Ei Hj. unfold getitem2.
  rewrite Sa, Ei, (axis_index_in_range _ Hj).
  eexists. split; reflexivity.
Qed.

Lemma reduce_first_matrix (f : list F -> F) (a : ndarray F) (r c : nat) :
  shape_of a = Sh2 r c -> 0 < r ->
  exists v, reduce_first f true a = Ok v /\ shape_of v = Sh1 c.
Proof.
  intros Sa Hr. unfold reduce_first.
  rewrite Sa, (@needs_items_positive _ Hr).
  eexists. split; reflexivity.
Qed.

Lemma compute_peaks_returns
    (initial_steady_states final_steady_states maxa mina : pyobj F) (n : nat) :
  shape_of (arr initial_steady_states) = Sh1 n ->
  shape_of (arr final_steady_states) = Sh1 n ->
  shape_of (arr maxa) = Sh1 n -> shape_of (arr mina) = Sh1 n ->
  exists r,
    compute_peaks initial_steady_states final_steady_states maxa mina = Ok r /\
    shape_of r = Sh1 n.
Proof.
  intros Si Sf Sx Sm. unfold compute_peaks, gt, lt.
  do 2 step. rewrite new_obj_is_not. cbn [new_obj arr].
  step. last_step. eexists. split; [reflexivity|shapes].
Qed.

Lemma compute_precision_returns
    (starting_states steady_states signal_0 signal_1 : ndarray F) (n : nat) :
  shape_of starting_states = Sh1 n -> shape_of steady_states = Sh1 n ->
  shape_of signal_0 = Sh0 -> shape_of signal_1 = Sh0 ->
  exists r,
    compute_precision starting_states steady_states signal_0 signal_1 = Ok r /\
    shape_of r = Sh1 n.
Proof.
  intros Ss St S0 S1. unfold compute_precision, sub.
  do 2 step.
  edestruct (@calculate_precision_core_items F N) as (p & E & Sp & _);
    [ | | | | rewrite E ]; try eassumption.
  exists p. split; [reflexivity|exact Sp].
Qed.

Lemma compute_sensitivity2_returns
    (starting_states minv maxv signal_1 signal_0 : ndarray F) (n : nat) :
  shape_of starting_states = Sh1 n ->
  shape_of minv = Sh1 n -> shape_of maxv = Sh1 n ->
  shape_of signal_1 = Sh0 -> shape_of signal_0 = Sh0 ->
  exists r,
    compute_sensitivity2 starting_states minv maxv signal_1 signal_0 = Ok r /\
    shape_of r = Sh1 n.
Proof.
  intros Ss Smin Smax S1 S0. unfold compute_sensitivity2, sub.
  do 2 step.
  edestruct (@calculate_sensitivity_core_items F N NL) as (q & E & Sq & _);
    [ | | | | rewrite E ]; try eassumption.
  exists q. split; [reflexivity|exact Sq].
Qed.

(** X15.  For two trajectories of at least one sample each, with as many
    species along the second axis, and an index of the signal species in
    range, [compute_adaptability_full] returns the adaptation, the
    sensitivity and the precision, one item per species each, whichever
    sensitivity function is chosen; no item of the adaptation is an
    infinity. *)
Theorem compute_adaptability_full_returns (ys_steady ys_signal : ndarray F)
    (r1 r2 c : nat) (idx_sig : Z) (use_sensitivity_func1 : bool) :
  shape_of ys_steady = Sh2 r1 c -> shape_of ys_signal = Sh2 r2 c ->
  0 < r1 -> 0 < r2 -> (0 <= idx_sig < Z.of_nat c)%Z ->
  exists a s p,
    compute_adaptability_full ys_steady ys_signal (Some idx_sig)
      use_sensitivity_func1 = Ok (a, Arr s, p) /\
    shape_of a = Sh1 c /\ shape_of s = Sh1 c /\ shape_of p = Sh1 c /\
    forall i, i < c ->
      item a 0 i = nan \/
      (fltb (fneg inf) (item a 0 i) = true /\ fltb (item a 0 i) inf = true).
Proof.
  intros S1 S2 H1 H2 Hidx. unfold compute_adaptability_full.
  destruct (@getitem_last _ _ _ S1 H1) as (steady_last & E1 & Ssl).
  destruct (@getitem_last _ _ _ S2 H2) as (signal_last & E2 & Sgl).
  destruct (@reduce_first_matrix (fold1 fmax2) _ _ _ S2 H2) as (mx & E3 & Smx).
  destruct (@reduce_first_matrix (fold1 fmin2) _ _ _ S2 H2) as (mn & E4 & Smn).
  destruct (@getitem2_scalar _ _ _ _ _ _ S1 (@axis_index_last _ H1) Hidx) as (s0 & E5 & Ss0).
  assert (E0 : axis_index r2 0 = Ok 0).
  { apply (@axis_index_in_range r2 0). lia. }
  destruct (@getitem2_scalar _ _ _ _ _ _ S2 E0 Hidx) as (s1 & E6 & Ss1).
  match goal with
  | |- exists a s p, bind ?m _ = _ /\ _ =>
      assert (Hs : exists s, m = Ok (Arr s) /\ shape_of s = Sh1 c)
  end.
  { unfold max_axis0, min_axis0. destruct use_sensitivity_func1.
    - rewrite E1, E2, E3, E4. cbn [bind].
      edestruct (@compute_peaks_returns) as (pk & Ep & Spk);
        [ | | | | rewrite Ep ]; try (cbn [new_obj arr]; eassumption).
      cbn [bind].
      destruct (compute_sensitivity_items _ _ Ssl Spk Hidx) as (s & Es & Ss & _).
      exists s. split; assumption.
    - rewrite E1, E3, E4, E5, E6. cbn [bind].
      destruct (@compute_sensitivity2_returns _ _ _ _ _ _ Ssl Smn Smx Ss1 Ss0)
        as (s & Es & Ss).
      rewrite Es. exists s. split; [reflexivity|assumption]. }
  destruct Hs as (s & Es & Ss). rewrite Es. cbn [bind].
  rewrite E1, E2, E5, E6. cbn [bind].
  destruct (@compute_precision_returns _ _ _ _ _ Ssl Sgl Ss0 Ss1) as (p & Ep & Sp).
  rewrite Ep. cbn [bind]. unfold calculate_adaptation_default.
  destruct (@calculate_adaptation_items _ _ (of_Z 3) (of_Z 7)
              (fdiv (of_Z 15) (of_Z 2)) _ Ss Sp) as (a & Ea & Sa & Ia).
  rewrite Ea. cbn [bind]. exists a, s, p. repeat (split; [first [reflexivity|assumption]|]).
  intros i Hi. rewrite (Ia i Hi). cbv zeta.
  destruct (fltb (fneg inf) _) eqn:L1; cbn [andb]; [|now left].
  destruct (fltb _ inf) eqn:L2; [|now left].
  right. now split.
Qed.

End Adaptation.

(** ** Zero precision and zero equilibrium constants *)

Section Zeros.
Context {F : Type} {N : Numeric F} {IL : @InfinityLaws F N}.

(** X16.  For per-species vectors of sensitivity and precision, [sp_prod]
    returns one item per species, and NaN for every species whose precision
    is 0: [1/p] is then not finite, and 0 times what is not finite is
    NaN. *)
Theorem sp_prod_zero_precision (s p : ndarray F) (n : nat) :
  shape_of s = Sh1 n -> shape_of p = Sh1 n ->
  exists r,
    sp_prod s p = Ok r /\
    shape_of r = Sh1 n /\
    forall i, i < n ->
      item r 0 i =
        fmul (item s 0 i)
          (fmul (item p 0 i)
             (fsub (item s 0 i) (fdiv (of_Z 1) (item p 0 i)))) /\
      (feqb (item p 0 i) (of_Z 0) = true -> item r 0 i = nan).
Proof.
  intros Ss Sp. unfold sp_prod, div, sub, mul, lit.
  repeat step. last_step. returned.
  intros i Hi. vector_items Hi. split; [reflexivity|].
  intros E0.
  rewrite (zero_mul_unbounded _ _ E0); [apply mul_nan_r|].
  apply sub_unbounded, div_zero_unbounded, E0.
Qed.

(** X17.  For a vector of equilibrium constants and a scalar forward rate,
    [eqconstant_to_rates] returns the forward rate times 1 for every
    constant, and the forward rate over the constant as the reverse rate,
    which is not a finite number (it is an infinity or NaN) wherever the
    equilibrium constant is 0. *)
Theorem eqconstant_to_rates_zero_constant (eqconstants k_f : ndarray F)
    (n : nat) :
  shape_of eqconstants = Sh1 n -> shape_of k_f = Sh0 ->
  exists k_f' k_r,
    eqconstant_to_rates eqconstants k_f = Ok (k_f', k_r) /\
    shape_of k_f' = Sh1 n /\ shape_of k_r = Sh1 n /\
    forall i, i < n ->
      item k_f' 0 i = fmul (item k_f 0 0) (of_Z 1) /\
      item k_r 0 i = fdiv (item k_f 0 0) (item eqconstants 0 i) /\
      (feqb (item eqconstants 0 i) (of_Z 0) = true ->
       unbounded (item k_r 0 i) = true).
Proof.
  intros Se Sk. unfold eqconstant_to_rates, div, mul.
  repeat step. do 2 eexists. split; [reflexivity|].
  split; [shapes|]. split; [shapes|].
  intros i Hi.
  assert (Er : item r 0 i = fdiv (item k_f 0 0) (item eqconstants 0 i)).
  { vector_items Hi. reflexivity. }
  split; [|split].
  - vector_items Hi. reflexivity.
  - exact Er.
  - intros E0. rewrite Er. now apply div_zero_unbounded.
Qed.

End Zeros.

(** ** Differences and ratios *)

Lemma append_cancel_r (s a b : string) :
  (a ++ s)%string = (b ++ s)%string -> a = b.
Proof.
  assert (L : forall x y : string,
            String.length (x ++ y) = String.length x + String.length y).
  { induction x as [|c x IH]; intros y; cbn; [reflexivity|now rewrite IH]. }
  revert b. induction a as [|c a IH]; intros [|c' b] E; cbn in E.
  - reflexivity.
  - apply (f_equal String.length) in E. cbn in E. rewrite L in E. lia.
  - apply (f_equal String.length) in E. cbn in E. rewrite L in E. lia.
  - injection E as -> E. f_equal. now apply IH.
Qed.

Lemma dict_get_set_same {F : Type} (d : dict F) (k : string) (v : pyval F) :
  dict_get (dict_set d k v) k = Some v.
Proof.
  induction d as [|[k0 v0] d IH]; cbn [dict_set dict_get].
  - now rewrite String.eqb_refl.
  - destruct (String.eqb_spec k0 k) as [->|Hne]; cbn [dict_get].
    + now rewrite String.eqb_refl.
    + destruct (String.eqb_spec k0 k); [contradiction|exact IH].
Qed.

Lemma dict_get_in {F : Type} (d : dict F) (k : string) (v : pyval F) :
  dict_get d k = Some v -> In k (map fst d).
Proof.
  induction d as [|[k0 v0] d IH]; cbn [dict_get map fst]; [discriminate|].
  destruct (String.eqb_spec k0 k) as [->|_]; [now left|].
  intros E. right. now apply IH.
Qed.

Section Comparison.
Context {F : Type} {N : Numeric F}.
Variables DIFF_KEY RATIO_KEY : string.
Variables analytics ref_analytics : dict F.

(** A key that [analytics] does not have stops the loop. *)
Lemma differences_ratios_of_missing (acc : dict F * dict F) (k : string) :
  dict_get analytics k = None ->
  exists f,
    differences_ratios_of DIFF_KEY RATIO_KEY analytics ref_analytics acc k
      = Failed f.
Proof.
  intros E. unfold differences_ratios_of. destruct acc as [ds rs].
  assert (La : lookup analytics k = Failed (KeyError k)).
  { unfold lookup. now rewrite E. }
  rewrite !La.
  destruct (lookup ref_analytics k) as [rv|f]; cbn [bind_outcome]; [|eauto].
  destruct (attr_ndim rv) as [rn|f]; cbn [bind_outcome]; [|eauto].
  destruct (1 <? rn); cbn [bind_outcome]; eauto.
Qed.

Lemma for_each_key_fails {S : Type} (f : S -> string -> outcome S)
    (keys : list string) (k : string) :
  In k keys -> (forall s, exists e, f s k = Failed e) ->
  forall s, exists e, for_each_key f keys s = Failed e.
Proof.
  intros Hin Hk. induction keys as [|k' keys IH]; intros s; [destruct Hin|].
  cbn [for_each_key].
  destruct (f s k') as [s'|e] eqn:E; cbn [bind_outcome]; [|eauto].
  destruct Hin as [->|Hin].
  - destruct (Hk s) as (e & E'). congruence.
  - now apply IH.
Qed.

(** X18.  When a key of [ref_analytics] is not a key of [analytics],
    [generate_differences_ratios] never returns. *)
Theorem generate_differences_ratios_missing_key (k : string) :
  In k (map fst ref_analytics) -> dict_get analytics k = None ->
  exists f,
    generate_differences_ratios DIFF_KEY RATIO_KEY analytics ref_analytics
      = Failed f.
Proof.
  intros Hin E. unfold generate_differences_ratios.
  apply (@for_each_key_fails _ _ _ k Hin).
  intros s. now apply differences_ratios_of_missing.
Qed.

(** What the body of the loop stores does not depend on what was stored
    before. *)
Lemma differences_ratios_of_sets (ds rs ds' rs' : dict F) (k : string) :
  differences_ratios_of DIFF_KEY RATIO_KEY analytics ref_analytics (ds, rs) k
    = Done (ds', rs') ->
  exists d q,
    ds' = dict_set ds (k ++ DIFF_KEY) (Arr d) /\
    rs' = dict_set rs (k ++ RATIO_KEY) (Arr q) /\
    differences_ratios_of DIFF_KEY RATIO_KEY analytics ref_analytics
      ([], []) k =
      Done ([((k ++ DIFF_KEY)%string, Arr d)],
            [((k ++ RATIO_KEY)%string, Arr q)]).
Proof.
  unfold differences_ratios_of.
  repeat match goal with
         | |- context [bind_outcome ?m _] =>
             destruct m; cbn [bind_outcome]; try discriminate
         | |- context [if ?b then _ else _] => destruct b
         end;
    intros E; try discriminate E; injection E as <- <-; do 2 eexists;
    repeat split; reflexivity.
Qed.

Lemma for_each_key_keeps (keys : list string) (k : string)
    (d q : ndarray F) (ds rs ds' rs' : dict F) :
  differences_ratios_of DIFF_KEY RATIO_KEY analytics ref_analytics ([], []) k =
    Done ([((k ++ DIFF_KEY)%string, Arr d)],
          [((k ++ RATIO_KEY)%string, Arr q)]) ->
  for_each_key (differences_ratios_of DIFF_KEY RATIO_KEY analytics ref_analytics)
    keys (ds, rs) = Done (ds', rs') ->
  In k keys \/
    (dict_get ds (k ++ DIFF_KEY) = Some (Arr d) /\
     dict_get rs (k ++ RATIO_KEY) = Some (Arr q)) ->
  dict_get ds' (k ++ DIFF_KEY) = Some (Arr d) /\
  dict_get rs' (k ++ RATIO_KEY) = Some (Arr q).
Proof.
  intros Ek. revert ds rs. induction keys as [|k' keys IH]; intros ds rs.
  - cbn [for_each_key]. intros E [[]|Hget]. now injection E as <- <-.
  - cbn [for_each_key].
    destruct (differences_ratios_of DIFF_KEY RATIO_KEY analytics ref_analytics
                (ds, rs) k') as [[ds1 rs1]|f] eqn:E1;
      cbn [bind_outcome]; [|discriminate].
    intros E Hcase. apply (IH _ _ E).
    destruct (differences_ratios_of_sets _ _ _ E1) as (d' & q' & -> & -> & E').
    destruct (String.eqb_spec k' k) as [->|Hne].
    + right. rewrite Ek in E'. injection E' as <- <-.
      split; apply dict_get_set_same.
    + destruct Hcase as [[Heq|Hin]|[Hd Hq]]; [contradiction|now left|].
      right. split.
      * rewrite dict_get_set_other; [exact Hd|].
        apply String.eqb_neq. intros Heq. apply Hne.
        now apply append_cancel_r in Heq.
      * rewrite dict_get_set_other; [exact Hq|].
        apply String.eqb_neq. intros Heq. apply Hne.
        now apply append_cancel_r in Heq.
Qed.

(** X19.  When [generate_differences_ratios] returns, then for every key
    under which both dictionaries hold vectors of the same length, the
    differences hold under the key with the difference suffix the
    analytics minus the reference, item by item, and the ratios hold under
    the key with the ratio suffix the analytics over the reference, with
    [+infinity] wherever the reference is 0. *)
Theorem generate_differences_ratios_vectors
    (differences ratios : dict F) (k : string) (a r : ndarray F) (n : nat) :
  generate_differences_ratios DIFF_KEY RATIO_KEY analytics ref_analytics
    = Done (differences, ratios) ->
  dict_get ref_analytics k = Some (Arr r) ->
  dict_get analytics k = Some (Arr a) ->
  shape_of r = Sh1 n -> shape_of a = Sh1 n ->
  exists d q,
    dict_get differences (k ++ DIFF_KEY) = Some (Arr d) /\
    dict_get ratios (k ++ RATIO_KEY) = Some (Arr q) /\
    shape_of d = Sh1 n /\ shape_of q = Sh1 n /\
    forall i, i < n ->
      item d 0 i = fsub (item a 0 i) (item r 0 i) /\
      item q 0 i =
        if feqb (item r 0 i) (of_Z 0) then inf
        else fdiv (item a 0 i) (item r 0 i).
Proof.
  intros E Er Ea Sr Sa.
  assert (Eb : exists d q,
    differences_ratios_of DIFF_KEY RATIO_KEY analytics ref_analytics
      ([], []) k =
      Done ([((k ++ DIFF_KEY)%string, Arr d)],
            [((k ++ RATIO_KEY)%string, Arr q)]) /\
    shape_of d = Sh1 n /\ shape_of q = Sh1 n /\
    forall i, i < n ->
      item d 0 i = fsub (item a 0 i) (item r 0 i) /\
      item q 0 i =
        if feqb (item r 0 i) (of_Z 0) then inf
        else fdiv (item a 0 i) (item r 0 i)).
  { unfold differences_ratios_of, lookup. rewrite Er, Ea.
    cbn [bind_outcome attr_ndim as_array]. unfold ndim. rewrite Sr.
    cbn [shape_tuple length Nat.ltb Nat.leb bind_outcome].
    unfold difference, ratio, sub, ne, div, lit.
    edestruct (lift2_spec fsub a r) as (d & Ed & Sd & Id); [shapes|].
    rewrite Ed. cbn [of_py bind_outcome].
    repeat step. last_step. cbn [of_py bind_outcome dict_set].
    do 2 eexists. split; [reflexivity|]. split; [shapes|]. split; [shapes|].
    intros i Hi. split; vector_items Hi; [reflexivity|].
    now destruct (feqb (item r 0 i) (of_Z 0)). }
  destruct Eb as (d & q & Eb & Sd & Sq & Hitems).
  exists d, q.
  destruct (@for_each_key_keeps _ k d q [] [] differences ratios Eb E)
    as [Hd Hq].
  { left. eapply dict_get_in, Er. }
  repeat (split; [assumption|]). exact Hitems.
Qed.

(** X20.  When [generate_differences_ratios] returns, then for every key
    under which both dictionaries hold arrays of two axes with as many
    rows, the difference and the ratio are taken over the first
    [min T T'] columns only, [T] and [T'] being the numbers of columns of
    the two: item by item, the analytics minus the reference, and the
    analytics over the reference with [+infinity] wherever the reference
    is 0. *)
Theorem generate_differences_ratios_matrices
    (differences ratios : dict F) (k : string) (a r : ndarray F)
    (s t t' : nat) :
  generate_differences_ratios DIFF_KEY RATIO_KEY analytics ref_analytics
    = Done (differences, ratios) ->
  dict_get ref_analytics k = Some (Arr r) ->
  dict_get analytics k = Some (Arr a) ->
  shape_of r = Sh2 s t' -> shape_of a = Sh2 s t ->
  exists d q,
    dict_get differences (k ++ DIFF_KEY) = Some (Arr d) /\
    dict_get ratios (k ++ RATIO_KEY) = Some (Arr q) /\
    shape_of d = Sh2 s (Nat.min t t') /\ shape_of q = Sh2 s (Nat.min t t') /\
    forall i j, i < s -> j < Nat.min t t' ->
      item d i j = fsub (item a i j) (item r i j) /\
      item q i j =
        if feqb (item r i j) (of_Z 0) then inf
        else fdiv (item a i j) (item r i j).
Proof.
  intros E Er Ea Sr Sa.
  assert (Eb : exists d q,
    differences_ratios_of DIFF_KEY RATIO_KEY analytics ref_analytics
      ([], []) k =
      Done ([((k ++ DIFF_KEY)%string, Arr d)],
            [((k ++ RATIO_KEY)%string, Arr q)]) /\
    shape_of d = Sh2 s (Nat.min t t') /\ shape_of q = Sh2 s (Nat.min t t') /\
    forall i j, i < s -> j < Nat.min t t' ->
      item d i j = fsub (item a i j) (item r i j) /\
      item q i j =
        if feqb (item r i j) (of_Z 0) then inf
        else fdiv (item a i j) (item r i j)).
  { unfold differences_ratios_of, lookup. rewrite Er, Ea.
    cbn [bind_outcome attr_ndim as_array]. unfold ndim. rewrite Sr, Sa.
    cbn [shape_tuple length Nat.ltb Nat.leb bind_outcome tuple_get nth_error
           of_py].
    unfold take_columns. rewrite Sr, Sa. cbn [of_py bind_outcome].
    replace (Nat.min (Nat.min t' t) t) with (Nat.min t t') by lia.
    replace (Nat.min (Nat.min t' t) t') with (Nat.min t t') by lia.
    set (m := Nat.min t t').
    set (a' := {| shape_of := Sh2 s m; item := item a |}).
    set (r' := {| shape_of := Sh2 s m; item := item r |}).
    assert (Sa' : shape_of a' = Sh2 s m) by reflexivity.
    assert (Sr' : shape_of r' = Sh2 s m) by reflexivity.
    unfold difference, ratio, sub, ne, div, lit.
    edestruct (lift2_spec fsub a' r') as (d & Ed & Sd & Id); [shapes|].
    rewrite Ed. cbn [of_py bind_outcome].
    repeat step. last_step. cbn [of_py bind_outcome dict_set].
    do 2 eexists. split; [reflexivity|]. split; [shapes|]. split; [shapes|].
    intros i j Hi Hj.
    repeat match goal with
           | Sq : shape_of ?q = Sh2 s m |- context [item ?q i j] =>
               rewrite <- (@bitem_matrix _ q _ _ _ _ Sq Hi Hj)
           end.
    items.
    rewrite (@bitem_matrix _ a' _ _ _ _ Sa' Hi Hj),
      (@bitem_matrix _ r' _ _ _ _ Sr' Hi Hj).
    cbn [a' r' item]. split; [reflexivity|].
    now destruct (feqb (item r i j) (of_Z 0)). }
  destruct Eb as (d & q & Eb & Sd & Sq & Hitems).
  exists d, q.
  destruct (@for_each_key_keeps _ k d q [] [] differences ratios Eb E)
    as [Hd Hq].
  { left. eapply dict_get_in, Er. }
  repeat (split; [assumption|]). exact Hitems.
Qed.

End Comparison.

(** ** The keys of the analytics *)

Lemma to_uint_not_nil (n : nat) : Nat.to_uint n <> Decimal.Nil.
Proof.
  intros E. pose proof (Unsigned.to_of (Nat.to_uint n)) as T.
  rewrite Unsigned.of_to, E in T. discriminate T.
Qed.

Lemma str_of_nat_inj (n m : nat) : str_of_nat n = str_of_nat m -> n = m.
Proof.
  unfold str_of_nat. intros E.
  apply (f_equal NilZero.uint_of_string) in E.
  rewrite !NilZero.usu in E by apply to_uint_not_nil.
  injection E as E. now apply Unsigned.to_uint_inj.
Qed.

Lemma append_cancel_l (s a b : string) :
  (s ++ a)%string = (s ++ b)%string -> a = b.
Proof.
  induction s as [|c s IH]; cbn; intros E; [exact E|].
  injection E as E. now apply IH.
Qed.

(** Setting a key that is absent appends it; setting one that is present
    keeps the keys and their order. *)
Lemma dict_set_keys_new {F : Type} (d : dict F) (k : string) (v : pyval F) :
  ~ In k (map fst d) -> map fst (dict_set d k v) = map fst d ++ [k].
Proof.
  induction d as [|[k0 v0] d IH]; cbn [dict_set map fst app]; intros Hk.
  - reflexivity.
  - destruct (String.eqb_spec k0 k) as [->|Hne].
    + exfalso. apply Hk. now left.
    + cbn [map fst]. f_equal. apply IH. intros Hin. apply Hk. now right.
Qed.

Section Keys.
Context {F : Type} {N : Numeric F}.

(** The names of the three metrics of a signal species. *)
Lemma metric_name_inj (single : bool) (b1 b2 : string) (i j : nat) :
  In b1 ["precision"; "response_time"; "sensitivity"]%string ->
  In b2 ["precision"; "response_time"; "sensitivity"]%string ->
  metric_name single b1 i = metric_name single b2 j ->
  b1 = b2 /\ (single = false -> i = j).
Proof.
  unfold metric_name.
  intros [<-|[<-|[<-|[]]]] [<-|[<-|[<-|[]]]]; destruct single; cbn;
    intros E; try discriminate E; (split; [reflexivity|]);
    intros Hs; try discriminate Hs.
  - apply (append_cancel_l "precision_wrt_species-") in E.
    now apply str_of_nat_inj.
  - apply (append_cancel_l "response_time_wrt_species-") in E.
    now apply str_of_nat_inj.
  - apply (append_cancel_l "sensitivity_wrt_species-") in E.
    now apply str_of_nat_inj.
Qed.

Lemma metric_name_not_metric (single : bool) (b : string) (i : nat) :
  In b ["precision"; "response_time"; "sensitivity"]%string ->
  ~ In (metric_name single b i)
      ["initial_steady_states"; "max_amount"; "min_amount"; "steady_states";
       "RMSE"; "first_derivative"; "fold_change"; "overshoot"]%string.
Proof.
  unfold metric_name.
  intros [<-|[<-|[<-|[]]]]; destruct single; cbn;
    intros Hin; repeat (destruct Hin as [E|Hin]; [discriminate E|]);
    destruct Hin.
Qed.

Lemma signal_analytics_keys (data t : ndarray F) (signal_time : option F)
    (single : bool) (initial_steady_states steady_states peaks : ndarray F)
    (acc acc' : dict F) (i : nat) :
  signal_analytics data t signal_time single initial_steady_states
    steady_states peaks acc i = Ok acc' ->
  (forall b, In b ["precision"; "response_time"; "sensitivity"]%string ->
     ~ In (metric_name single b i) (map fst acc)) ->
  map fst acc' =
    map fst acc ++ [metric_name single "precision" i;
                    metric_name single "response_time" i;
                    metric_name single "sensitivity" i].
Proof.
  unfold signal_analytics. intros E Hnew.
  repeat match type of E with
         | context [bind ?m _] =>
             destruct m; cbn [bind] in E; [|discriminate E]
         end.
  injection E as <-.
  rewrite !dict_set_keys_new.
  - now rewrite <- !app_assoc.
  - apply Hnew. now left.
  - rewrite dict_set_keys_new by (apply Hnew; now left).
    intros Hin. apply in_app_or in Hin. destruct Hin as [Hin|[E|[]]].
    + revert Hin. apply Hnew. right. now left.
    + apply metric_name_inj in E; [|now left|right; now left].
      destruct E as [E _]. discriminate E.
  - rewrite dict_set_keys_new.
    + rewrite dict_set_keys_new by (apply Hnew; now left).
      intros Hin. apply in_app_or in Hin. destruct Hin as [Hin|[E|[]]].
      * apply in_app_or in Hin. destruct Hin as [Hin|[E|[]]].
        -- revert Hin. apply Hnew. right. right. now left.
        -- apply metric_name_inj in E; [|now left|right; right; now left].
           destruct E as [E _]. discriminate E.
      * apply metric_name_inj in E;
          [|right; now left|right; right; now left].
        destruct E as [E _]. discriminate E.
    + rewrite dict_set_keys_new by (apply Hnew; now left).
      intros Hin. apply in_app_or in Hin. destruct Hin as [Hin|[E|[]]].
      * revert Hin. apply Hnew. right. now left.
      * apply metric_name_inj in E; [|now left|right; now left].
        destruct E as [E _]. discriminate E.
Qed.

Lemma for_each_signal_keys (data t : ndarray F) (signal_time : option F)
    (single : bool) (initial_steady_states steady_states peaks : ndarray F)
    (idxs : list nat) (acc d : dict F) :
  NoDup idxs -> (single = true -> length idxs <= 1) ->
  (forall i b, In i idxs ->
     In b ["precision"; "response_time"; "sensitivity"]%string ->
     ~ In (metric_name single b i) (map fst acc)) ->
  for_each (signal_analytics data t signal_time single initial_steady_states
              steady_states peaks) idxs acc = Ok d ->
  map fst d =
    map fst acc ++
    flat_map (fun i => [metric_name single "precision" i;
                        metric_name single "response_time" i;
                        metric_name single "sensitivity" i]) idxs.
Proof.
  revert acc. induction idxs as [|i idxs IH]; intros acc Hnd Hlen Hnew E.
  - cbn in E. injection E as <-. cbn. now rewrite app_nil_r.
  - cbn [for_each] in E.
    destruct (signal_analytics data t signal_time single initial_steady_states
                steady_states peaks acc i) as [acc1|e] eqn:E1;
      cbn [bind] in E; [|discriminate E].
    apply signal_analytics_keys in E1; [|intros b Hb; apply Hnew; [now left|exact Hb]].
    inversion Hnd as [|? ? Hi Hnd']; subst.
    rewrite (IH acc1 Hnd'); [| |  |exact E].
    + rewrite E1. cbn [flat_map]. now rewrite <- app_assoc.
    + intros Hs. specialize (Hlen Hs). cbn in Hlen. lia.
    + intros j b Hj Hb. rewrite E1. intros Hin.
      apply in_app_or in Hin. destruct Hin as [Hin|Hin].
      * revert Hin. apply Hnew; [now right|exact Hb].
      * assert (Hcase : exists b', In b' ["precision"; "response_time";
                                           "sensitivity"]%string /\
                                   metric_name single b' i = metric_name single b j).
        { destruct Hin as [E'|[E'|[E'|[]]]]; eexists; (split; [|exact E']);
            cbn; tauto. }
        destruct Hcase as (b' & Hb' & E').
        apply metric_name_inj in E'; [|exact Hb'|exact Hb].
        destruct E' as [_ Hij]. destruct single.
        -- specialize (Hlen eq_refl). cbn in Hlen.
           destruct idxs; [destruct Hj|cbn in Hlen; lia].
        -- apply Hi. now rewrite (Hij eq_refl).
Qed.

(** X21.  Whenever [generate_base_analytics] returns for a trajectory,
    the keys of the dictionary are, in this order: the boundary, extreme
    and error metrics, ['first_derivative'] when asked for, the fold
    change and the overshoot; and then, with a one-hot vector of signal
    species, the precision, the response time and the sensitivity for each
    marked species in turn, under these plain names when one species is
    marked and with the suffix [_wrt_species-<index>] when several are. *)
Theorem generate_base_analytics_keys (data t : ndarray F)
    (labels : list string) (signal_onehot : option (ndarray F))
    (signal_time : option F) (ref_circuit_data : option (ndarray F))
    (include_deriv : bool) (d : dict F) :
  generate_base_analytics (Some data) t labels signal_onehot signal_time
    ref_circuit_data include_deriv = Ok d ->
  let base :=
    ["initial_steady_states"; "max_amount"; "min_amount"; "steady_states";
     "RMSE"]%string
    ++ (if include_deriv then ["first_derivative"]%string else [])
    ++ ["fold_change"; "overshoot"]%string in
  match signal_onehot with
  | None => map fst d = base
  | Some onehot =>
      forall n, shape_of onehot = Sh1 n ->
        let idxs :=
          filter (fun i => feqb (item onehot 0 i) (of_Z 1)) (seq 0 n) in
        map fst d =
          base ++
          flat_map (fun i =>
                      [metric_name (length idxs =? 1) "precision" i;
                       metric_name (length idxs =? 1) "response_time" i;
                       metric_name (length idxs =? 1) "sensitivity" i])
            idxs
  end.
Proof.
  intros E base. unfold generate_base_analytics in E.
  destruct signal_onehot as [onehot|].
  - intros n So idxs.
    assert (Ew : (m <- lift2 feqb onehot (lit 1) ;;
                  fmap (@Some _) (where_first m)) = Ok (Some idxs)).
    { unfold lift2, lit. rewrite So. cbn [shape_of scalar bshape bind].
      unfold where_first. cbn [shape_of fmap bind item]. do 2 f_equal.
      apply filter_ext_in. intros i Hi. apply in_seq in Hi.
      rewrite (@bitem_vector _ onehot _ _ 0 So) by lia. reflexivity. }
    rewrite Ew in E. cbn [bind] in E.
    repeat match type of E with
           | context [bind (for_each _ _ _) _] => fail 1
           | bind ?m _ = _ =>
               destruct m; cbn [bind] in E; [|discriminate E]
           end.
    apply for_each_signal_keys in E.
    + rewrite E. f_equal. unfold base. now destruct include_deriv.
    + apply NoDup_filter, seq_NoDup.
    + intros Hs. apply Nat.eqb_eq in Hs. lia.
    + intros i b _ Hb Hin.
      apply (@metric_name_not_metric (length idxs =? 1) b i Hb).
      destruct include_deriv; cbn in Hin |- *; tauto.
  - cbn [bind] in E.
    repeat match type of E with
           | bind ?m _ = _ =>
               destruct m; cbn [bind] in E; [|discriminate E]
           end.
    injection E as <-. unfold base. now destruct include_deriv.
Qed.

End Keys.

(** * The functions at work, in IEEE binary64 *)

Module Examples.
Import Data.

Section Binary64.
#[local] Existing Instance IEEE.binary64.

(** C1.  On the trajectory [[1, 2, 3, 2, 1]] the peak that
    [compute_peaks] returns is 1, the minimum, and the overshoot is 0: the
    steady state is not above the starting state, so the minimum is chosen,
    and the starting state not being below it selects the minimum again,
    not the maximum 3.  [generate_analytics] reports that overshoot, 0, for
    each of two such species. *)
Theorem compute_peaks_spec_example :
  peak_metrics one_species =
    Ok [("initial_steady_states", [b64 1]);
        ("steady_states", [b64 1]);
        ("max_amount", [b64 3]);
        ("min_amount", [b64 1]);
        ("peak", [b64 1]);
        ("overshoot", [b64 0])]%string /\
  fmap (fun d => metric d "overshoot")
    (generate_analytics two_species (vec [0; 1; 2; 3; 4]%Z)
       ["A"; "B"]%string None None None)
    = Ok (Some [b64 0; b64 0]).
Proof. vm_compute. split; reflexivity. Qed.

(** C2.  A starting state of -1 is not zero, and the quotient of the
    steady state 2 by it is -2; [compute_fold_change] returns NaN. *)
Theorem compute_fold_change_at_minus_one :
  fmap (@to_list _) (compute_fold_change (vec [-1]%Z) (vec [2]%Z))
    = Ok [S754_nan] /\
  feqb (b64 (-1)) (b64 0) = false /\
  fdiv (b64 2) (b64 (-1)) = b64 (-2).
Proof. vm_compute. repeat split. Qed.

(** C8.  On a trajectory of one species and five samples
    [compute_derivative] raises [ValueError], and with it
    [generate_analytics]: the gradient is taken along the species too, and
    one species is too few for it. *)
Theorem compute_derivative_one_species :
  compute_derivative one_species = Raise ValueError /\
  generate_analytics one_species (vec [0; 1; 2; 3; 4]%Z) ["A"%string]
    None None None = Raise ValueError.
Proof. vm_compute. split; reflexivity. Qed.

(** C5, the claim as stated fails: a trajectory that never leaves the band
    (no sample is outside) has response time 1, the first positive sample
    time minus the onset time 0, and that is not [+infinity]. *)
Lemma response_time_inside_band :
  fmap (@to_rows _) (is_data_outside_stst flat (mat [[1]]%Z))
    = Ok [[false; false; false]] /\
  fmap (@to_list _)
    (compute_step_response_times flat (vec [0; 1; 2]%Z) (mat [[1]]%Z)
       (Some (b64 0)))
    = Ok [b64 1] /\
  b64 1 <> inf.
Proof. vm_compute. repeat split. discriminate. Qed.

(** C6, the claim as stated fails: with forward rate 0 the round trip
    returns NaN for the equilibrium constants 1 and 2; and with forward rate
    1 it returns, for 49, the next number above 49. *)
Lemma round_trip_fails :
  fmap (@to_list _) (round_trip (vec [1; 2]%Z) (scalar (b64 0)))
    = Ok [S754_nan; S754_nan] /\
  fmap (@to_list _) (round_trip (vec [49]%Z) (scalar (b64 1)))
    = Ok [S754_finite false 6896136929411073 (-47)] /\
  b64 49 = S754_finite false 6896136929411072 (-47).
Proof. vm_compute. repeat split. Qed.

(** Nor is the original returned up to rounding: with forward rate 1 the
    reverse rate of the least positive number, 2^-1074, overflows to
    [+infinity], and the round trip returns 0. *)
Lemma round_trip_underflow :
  fmap (fun rates => (to_list (fst rates), to_list (snd rates)))
    (eqconstant_to_rates (vector S754_nan [S754_finite false 1 (-1074)])
       (scalar (b64 1)))
    = Ok ([b64 1], [S754_infinity false]) /\
  fmap (@to_list _)
    (round_trip (vector S754_nan [S754_finite false 1 (-1074)])
       (scalar (b64 1)))
    = Ok [S754_zero false].
Proof. vm_compute. split; reflexivity. Qed.

(** The mean of [compute_rmse] is the sum times the reciprocal of the
    count: for the row [0, 0, 5] against zeros the error is
    0x1.7181116f43fe3p+1, one unit in the last place below the square root
    of the quotient 25/3. *)
Lemma compute_rmse_reciprocal :
  fmap (@to_list _)
    (compute_rmse (mat [[0; 0; 5]]%Z) (Some (mat [[0; 0; 0]]%Z)))
    = Ok [S754_finite false 6500386142961635 (-51)] /\
  fsqrt (fdiv (b64 25) (b64 3)) = S754_finite false 6500386142961636 (-51).
Proof. vm_compute. split; reflexivity. Qed.

End Binary64.

End Examples.

(** * The theorems at concrete inputs *)

Module Witnesses.
Import Data.

Section Binary64.
#[local] Existing Instance IEEE.binary64.

Lemma compute_sensitivity_guards_witness :
  (shape_of starting = Sh1 2 /\ shape_of peaks = Sh1 2 /\ (0 <= 0 < 2)%Z) /\
  exists r,
    compute_sensitivity (Some 0%Z) starting peaks = Ok (Arr r) /\
    shape_of r = Sh1 2 /\
    forall i, i < 2 ->
      item r 0 i =
        sensitivity_wording (item starting 0 i) (item peaks 0 i)
          (item starting 0 0) (item peaks 0 0).
Proof.
  split; [repeat split; lia|].
  apply (@compute_sensitivity_guards _ _ IEEEFacts.binary64_laws starting peaks 2 0%Z);
    [reflexivity | reflexivity | lia].
Defined.

Lemma compute_precision_guards_witness :
  (shape_of starting = Sh1 2 /\ shape_of steady = Sh1 2) /\
  exists r,
    compute_precision starting steady (scalar (b64 2)) (scalar (b64 4)) = Ok r /\
    shape_of r = Sh1 2 /\
    forall i, i < 2 ->
      item r 0 i =
        precision_wording (item starting 0 i) (item steady 0 i) (b64 2) (b64 4).
Proof.
  split; [split; reflexivity|].
  apply (@compute_precision_guards _ _ starting steady
           (scalar (b64 2)) (scalar (b64 4)) 2); reflexivity.
Defined.

Lemma compute_step_response_times_items_witness :
  (shape_of trajectory = Sh2 2 4 /\ shape_of times = Sh1 4 /\
   shape_of steady_column = Sh2 2 1 /\ 0 < 4) /\
  exists r,
    compute_step_response_times trajectory times steady_column (Some (b64 1))
      = Ok r /\
    shape_of r = Sh1 2 /\
    forall i, i < 2 ->
      item r 0 i =
        fsub (t_stop (item times 0)
                (t_pre (item times 0) (item trajectory i)
                   (item steady_column i 0) 4) 4)
          (b64 1).
Proof.
  split; [repeat split; lia|].
  apply (@compute_step_response_times_items _ _ IEEEFacts.binary64_laws
           trajectory times steady_column (b64 1) 2 4);
    [reflexivity | reflexivity | reflexivity | lia].
Defined.

Lemma compute_rmse_window_witness :
  shape_of trajectory = Sh2 2 4 /\
  ((compute_rmse trajectory None = Ok (zeros_column 2) /\
    shape_of (@zeros_column spec_float _ 2) = Sh2 2 1 /\
    forall i j, item (@zeros_column spec_float _ 2) i j = of_Z 0) /\
   forall (ref : ndarray spec_float) (T' : nat),
     shape_of ref = Sh2 2 T' ->
     exists r,
       compute_rmse trajectory (Some ref) = Ok r /\
       shape_of r = Sh1 2 /\
       forall i, i < 2 ->
         item r 0 i = rmse_wording (Nat.min 4 T') (item trajectory i) (item ref i)).
Proof.
  split; [reflexivity|].
  apply (@compute_rmse_window _ _ trajectory 2 4). reflexivity.
Defined.

Lemma compute_fold_change_minus_one_witness :
  (shape_of (vec [-1; 0; 4]%Z) = Sh1 3 /\ shape_of (vec [2; 2; 2]%Z) = Sh1 3) /\
  exists r,
    compute_fold_change (vec [-1; 0; 4]%Z) (vec [2; 2; 2]%Z) = Ok r /\
    shape_of r = Sh1 3 /\
    forall i, i < 3 ->
      (feqb (item (vec [-1; 0; 4]%Z) 0 i) (of_Z (-1)) = true ->
       item r 0 i = nan) /\
      (feqb (item (vec [-1; 0; 4]%Z) 0 i) (of_Z 0) = true ->
       item r 0 i = nan).
Proof.
  split; [split; reflexivity|].
  apply (@compute_fold_change_minus_one _ _ IEEEFacts.binary64_laws
           (vec [-1; 0; 4]%Z) (vec [2; 2; 2]%Z) 3); reflexivity.
Defined.

Lemma generate_analytics_species_axis_witness :
  (shape_of sideways <> Sh0 /\
   ~ In 4 (shape_tuple (shape_of sideways)) /\
   shape_of sideways = Sh2 2 3) /\
  generate_analytics sideways times ["A"; "B"; "C"; "D"]%string None None None
    = Raise ValueError /\
  generate_analytics sideways times ["A"; "B"; "C"]%string None None None
    = generate_base_analytics
        (Some {| shape_of := Sh2 3 2; item := fun i j => item sideways j i |})
        times ["A"; "B"; "C"]%string None None None false.
Proof.
  assert (A : shape_of sideways <> Sh0) by discriminate.
  assert (B : ~ In 4 (shape_tuple (shape_of sideways)))
    by (intros [E|[E|[]]]; discriminate E).
  split; [repeat split; assumption|]. split.
  - exact (proj1 (generate_analytics_species_axis sideways times
                    ["A"; "B"; "C"; "D"]%string None None None) A B).
  - refine (proj2 (proj1 (proj2 (generate_analytics_species_axis sideways times
                    ["A"; "B"; "C"]%string None None None)) 2 3 eq_refl _ eq_refl)).
    discriminate.
Defined.

Lemma compute_peaks_items_witness :
  (shape_of (arr o_initial) = Sh1 2 /\ shape_of (arr o_steady) = Sh1 2 /\
   shape_of (arr o_max) = Sh1 2 /\ shape_of (arr o_min) = Sh1 2) /\
  exists r,
    compute_peaks o_initial o_steady o_max o_min = Ok r /\
    shape_of r = Sh1 2 /\
    forall i, i < 2 ->
      item r 0 i =
        if fltb (item (arr o_initial) 0 i) (item (arr o_steady) 0 i)
           && fltb (item (arr o_initial) 0 i) (item (arr o_max) 0 i)
        then item (arr o_max) 0 i
        else item (arr o_min) 0 i.
Proof.
  split; [repeat split|].
  apply (@compute_peaks_items _ _ o_initial o_steady o_max o_min 2);
    reflexivity.
Defined.

Lemma compute_fold_change_positions_witness :
  (shape_of (vec [-1; 0; 4]%Z) = Sh1 3 /\ shape_of (vec [2; 2; 2]%Z) = Sh1 3) /\
  exists r,
    compute_fold_change (vec [-1; 0; 4]%Z) (vec [2; 2; 2]%Z) = Ok r /\
    shape_of r = Sh1 3 /\
    forall i, i < 3 ->
      (feqb (item (vec [-1; 0; 4]%Z) 0 i) (of_Z 0) = false ->
       feqb (item (vec [-1; 0; 4]%Z) 0 i) (of_Z (-1)) = false ->
       item r 0 i =
         fdiv (item (vec [2; 2; 2]%Z) 0 i) (item (vec [-1; 0; 4]%Z) 0 i)) /\
      (feqb (item (vec [-1; 0; 4]%Z) 0 i) (of_Z 0)
       || feqb (item (vec [-1; 0; 4]%Z) 0 i) (of_Z (-1)) = true ->
       item r 0 i = nan).
Proof.
  split; [split; reflexivity|].
  apply (@compute_fold_change_positions _ _ IEEEFacts.binary64_laws
           (vec [-1; 0; 4]%Z) (vec [2; 2; 2]%Z) 3); reflexivity.
Defined.

Lemma compute_overshoot_not_negative_witness :
  (shape_of steady = Sh1 2 /\ shape_of peaks = Sh1 2) /\
  exists r,
    compute_overshoot steady peaks = Ok r /\
    shape_of r = Sh1 2 /\
    forall i, i < 2 ->
      item r 0 i = fabs (fsub (item peaks 0 i) (item steady 0 i)) /\
      fltb (item r 0 i) (of_Z 0) = false.
Proof.
  split; [split; reflexivity|].
  apply (@compute_overshoot_not_negative _ _ IEEEFacts.binary64_laws
           steady peaks 2); reflexivity.
Defined.

Lemma compute_derivative_one_sample_witness :
  (shape_of one_sample = Sh2 2 1 /\ 1 <= 1) /\
  exists d,
    compute_derivative one_sample = Ok d /\
    shape_of d = Sh2 2 1 /\
    forall i j, i < 2 -> j < 1 -> item d i j = inf.
Proof.
  split; [split; [reflexivity | lia]|].
  apply (@compute_derivative_one_sample _ _ IEEEFacts.binary64_laws
           one_sample 2 1); [reflexivity | lia].
Defined.

Lemma compute_derivative_gradient_witness :
  (shape_of trajectory = Sh2 2 4 /\ 2 <= 4) /\
  compute_derivative trajectory =
    if 2 <? 2 then Raise ValueError
    else Ok {| shape_of := Sh2 2 4;
               item := fun i j => gradient_line (item trajectory i) 4 j |}.
Proof.
  split; [split; [reflexivity | lia]|].
  apply (@compute_derivative_gradient _ _ trajectory 2 4); [reflexivity | lia].
Defined.

Lemma generate_base_analytics_boundaries_witness :
  exists d,
    generate_base_analytics (Some trajectory) times ["A"; "B"]%string
      (Some (vec [1; 0]%Z)) (Some (b64 1)) (Some reference) false = Ok d /\
    exists r c,
      shape_of trajectory = Sh2 r c /\ 0 < c /\
      dict_get d "initial_steady_states" =
        Some (Arr {| shape_of := Sh1 r;
                     item := fun _ i => item trajectory i 0 |}) /\
      dict_get d "steady_states" =
        Some (Arr {| shape_of := Sh1 r;
                     item := fun _ i => item trajectory i (c - 1) |}).
Proof.
  assert (C : fmap (fun d => metric d "steady_states")
                (generate_base_analytics (Some trajectory) times
                   ["A"; "B"]%string (Some (vec [1; 0]%Z)) (Some (b64 1))
                   (Some reference) false)
              = Ok (Some [b64 1; b64 2]))
    by (vm_compute; reflexivity).
  destruct (generate_base_analytics (Some trajectory) times ["A"; "B"]%string
              (Some (vec [1; 0]%Z)) (Some (b64 1)) (Some reference) false)
    as [d|e] eqn:E; [|discriminate C].
  exists d. split; [reflexivity|].
  exact (generate_base_analytics_boundaries _ _ _ _ _ _ _ E).
Defined.

End Binary64.

(** Binary64: the forward rate 3 and the equilibrium constants 2, 0 and
    [-infinity]. *)
Lemma round_trip_special_values_witness :
  (shape_of (vector S754_nan
               [Data.b64 2; Data.b64 0; S754_infinity true]) = Sh1 3 /\
   finite_nonzero (Data.b64 3) = true /\
   SFmul 53 1024 (Data.b64 3) (IEEE.ieee_of_Z 53 1024 1) = Data.b64 3) /\
  exists r,
    @round_trip _ IEEE.binary64
      (vector S754_nan [Data.b64 2; Data.b64 0; S754_infinity true])
      (scalar (Data.b64 3)) = Ok r /\
    shape_of r = Sh1 3 /\
    item r 0 1 = Data.b64 0 /\ item r 0 2 = S754_infinity true.
Proof.
  split; [repeat split|].
  destruct (@round_trip_special_values 53 1024
              (vector S754_nan [Data.b64 2; Data.b64 0; S754_infinity true])
              (Data.b64 3) 3 eq_refl) as (r & E & Sr & Ir).
  exists r. split; [exact E|]. split; [exact Sr|]. split.
  - assert (H1 : 1 < 3) by lia.
    exact (proj2 (Ir 1 H1) eq_refl eq_refl eq_refl).
  - assert (H2 : 2 < 3) by lia.
    exact (proj2 (Ir 2 H2) eq_refl eq_refl eq_refl).
Defined.

End Witnesses.

(** * The further theorems at concrete inputs *)

Module MoreWitnesses.
Import Data MoreData.

Section Binary64.
#[local] Existing Instance IEEE.binary64.

Lemma compute_precision_not_negative_witness :
  (shape_of starting = Sh1 2 /\ shape_of steady = Sh1 2) /\
  exists r,
    compute_precision starting steady (scalar (b64 2)) (scalar (b64 4)) = Ok r /\
    shape_of r = Sh1 2 /\
    forall i, i < 2 -> fltb (item r 0 i) (of_Z 0) = false.
Proof.
  split; [split; reflexivity|].
  apply (@compute_precision_not_negative _ _ IEEEFacts.binary64_laws
           starting steady (scalar (b64 2)) (scalar (b64 4)) 2); reflexivity.
Defined.

Lemma compute_sensitivity_not_negative_witness :
  (shape_of starting = Sh1 2 /\ shape_of peaks = Sh1 2 /\ (0 <= 0 < 2)%Z) /\
  exists r,
    compute_sensitivity (Some 0%Z) starting peaks = Ok (Arr r) /\
    shape_of r = Sh1 2 /\
    forall i, i < 2 -> fltb (item r 0 i) (of_Z 0) = false.
Proof.
  split; [repeat split; lia|].
  apply (@compute_sensitivity_not_negative _ _ IEEEFacts.binary64_laws
           (IEEESigns.ieee_sign_laws 53 1024) starting peaks 2 0%Z);
    [reflexivity | reflexivity | lia].
Defined.

Lemma compute_rmse_not_negative_witness :
  (shape_of trajectory = Sh2 2 4 /\ shape_of reference = Sh2 2 3) /\
  exists r,
    compute_rmse trajectory (Some reference) = Ok r /\
    shape_of r = Sh1 2 /\
    forall i, i < 2 -> fltb (item r 0 i) (of_Z 0) = false.
Proof.
  split; [split; reflexivity|].
  apply (@compute_rmse_not_negative _ _ (IEEESigns.ieee_sign_laws 53 1024)
           trajectory reference 2 4 3); reflexivity.
Defined.

Lemma compute_sensitivity_simple_agrees_witness :
  (shape_of starting = Sh1 2 /\ shape_of peaks = Sh1 2 /\ (0 <= 0 < 2)%Z /\
   feqb (item starting 0 0) (of_Z 0) = false) /\
  exists r r',
    compute_sensitivity (Some 0%Z) starting peaks = Ok (Arr r) /\
    compute_sensitivity_simple starting peaks
      (scalar (fdiv (fsub (item peaks 0 0) (item starting 0 0))
                 (item starting 0 0))) = Ok r' /\
    shape_of r = Sh1 2 /\ shape_of r' = Sh1 2 /\
    forall i, i < 2 ->
      feqb (item starting 0 i) (of_Z 0) = true \/
      feqb (fsub (item peaks 0 i) (item starting 0 i)) (of_Z 0) = false ->
      item r 0 i = item r' 0 i.
Proof.
  split; [repeat split; lia|].
  apply (@compute_sensitivity_simple_agrees _ _ IEEEFacts.binary64_laws
           starting peaks 2 0%Z); [reflexivity | reflexivity | lia | reflexivity].
Defined.

Lemma compute_sensitivity2_range_witness :
  (shape_of starting = Sh1 2 /\ shape_of steady = Sh1 2 /\
   shape_of peaks = Sh1 2) /\
  exists r,
    compute_sensitivity2 starting steady peaks (scalar (b64 4)) (scalar (b64 2))
      = Ok r /\
    shape_of r = Sh1 2 /\
    forall i, i < 2 ->
      item r 0 i =
        if feqb (b64 2) (of_Z 0) then inf
        else fabs (fdiv
                     (if feqb (item starting 0 i) (of_Z 0) then inf
                      else if feqb (fsub (item peaks 0 i) (item steady 0 i))
                                (of_Z 0) then nan
                      else fdiv (fsub (item peaks 0 i) (item steady 0 i))
                             (item starting 0 i))
                     (fdiv (fsub (b64 4) (b64 2)) (b64 2))).
Proof.
  split; [repeat split|].
  apply (@compute_sensitivity2_range _ _ IEEEFacts.binary64_laws
           starting steady peaks (scalar (b64 4)) (scalar (b64 2)) 2);
    reflexivity.
Defined.

Lemma generate_analytics_signal_without_time_witness :
  (shape_of (vec [1; 0]%Z) = Sh1 2 /\ 0 < 2 /\
   feqb (item (vec [1; 0]%Z) 0 0) (of_Z 1) = true) /\
  exists e,
    generate_analytics trajectory times ["A"; "B"]%string None
      (Some (vec [1; 0]%Z)) None = Raise e.
Proof.
  split; [repeat split; lia|].
  apply (@generate_analytics_signal_without_time _ _ trajectory times
           ["A"; "B"]%string None (vec [1; 0]%Z) 2 0);
    [reflexivity | lia | reflexivity].
Defined.

Lemma sp_prod_zero_precision_witness :
  (shape_of sensitivities = Sh1 2 /\ shape_of precisions = Sh1 2) /\
  exists r,
    sp_prod sensitivities precisions = Ok r /\
    shape_of r = Sh1 2 /\
    forall i, i < 2 ->
      item r 0 i =
        fmul (item sensitivities 0 i)
          (fmul (item precisions 0 i)
             (fsub (item sensitivities 0 i)
                (fdiv (of_Z 1) (item precisions 0 i)))) /\
      (feqb (item precisions 0 i) (of_Z 0) = true -> item r 0 i = nan).
Proof.
  split; [split; reflexivity|].
  apply (@sp_prod_zero_precision _ _ (IEEESigns.ieee_infinity_laws 53 1024)
           sensitivities precisions 2); reflexivity.
Defined.

Lemma eqconstant_to_rates_zero_constant_witness :
  shape_of (vec [2; 0]%Z) = Sh1 2 /\
  exists k_f' k_r,
    eqconstant_to_rates (vec [2; 0]%Z) (scalar (b64 3)) = Ok (k_f', k_r) /\
    shape_of k_f' = Sh1 2 /\ shape_of k_r = Sh1 2 /\
    forall i, i < 2 ->
      item k_f' 0 i = fmul (b64 3) (of_Z 1) /\
      item k_r 0 i = fdiv (b64 3) (item (vec [2; 0]%Z) 0 i) /\
      (feqb (item (vec [2; 0]%Z) 0 i) (of_Z 0) = true ->
       unbounded (item k_r 0 i) = true).
Proof.
  split; [reflexivity|].
  apply (@eqconstant_to_rates_zero_constant _ _ (IEEESigns.ieee_infinity_laws 53 1024)
           (vec [2; 0]%Z) (scalar (b64 3)) 2); reflexivity.
Defined.

Lemma generate_differences_ratios_missing_key_witness :
  (In "first_derivative"%string (map fst baseline) /\
   dict_get measured_partly "first_derivative" = None) /\
  exists f,
    generate_differences_ratios diff_suffix ratio_suffix measured_partly baseline
      = Failed f.
Proof.
  assert (A : In "first_derivative"%string (map fst baseline))
    by (right; left; reflexivity).
  split; [split; [exact A | reflexivity]|].
  exact (@generate_differences_ratios_missing_key _ _ diff_suffix ratio_suffix
           measured_partly baseline "first_derivative"%string A eq_refl).
Defined.

Lemma generate_differences_ratios_vectors_witness :
  exists differences ratios,
    generate_differences_ratios diff_suffix ratio_suffix measured baseline
      = Done (differences, ratios) /\
    exists d q,
      dict_get differences "overshoot_diff" = Some (Arr d) /\
      dict_get ratios "overshoot_ratio" = Some (Arr q) /\
      shape_of d = Sh1 2 /\ shape_of q = Sh1 2 /\
      forall i, i < 2 ->
        item d 0 i = fsub (item (vec [3; 5]%Z) 0 i) (item (vec [2; 0]%Z) 0 i) /\
        item q 0 i =
          if feqb (item (vec [2; 0]%Z) 0 i) (of_Z 0) then inf
          else fdiv (item (vec [3; 5]%Z) 0 i) (item (vec [2; 0]%Z) 0 i).
Proof.
  assert (C : returned_value
                (generate_differences_ratios diff_suffix ratio_suffix
                   measured baseline) = true)
    by (vm_compute; reflexivity).
  destruct (generate_differences_ratios diff_suffix ratio_suffix
              measured baseline) as [[differences ratios]|f] eqn:E;
    [|discriminate C].
  exists differences, ratios. split; [reflexivity|].
  exact (@generate_differences_ratios_vectors _ _ diff_suffix ratio_suffix
           measured baseline differences ratios "overshoot"%string
           (vec [3; 5]%Z) (vec [2; 0]%Z) 2 E eq_refl eq_refl eq_refl eq_refl).
Defined.

Lemma generate_differences_ratios_matrices_witness :
  exists differences ratios,
    generate_differences_ratios diff_suffix ratio_suffix measured baseline
      = Done (differences, ratios) /\
    exists d q,
      dict_get differences "first_derivative_diff" = Some (Arr d) /\
      dict_get ratios "first_derivative_ratio" = Some (Arr q) /\
      shape_of d = Sh2 2 3 /\ shape_of q = Sh2 2 3 /\
      forall i j, i < 2 -> j < 3 ->
        item d i j = fsub (item trajectory i j) (item reference i j) /\
        item q i j =
          if feqb (item reference i j) (of_Z 0) then inf
          else fdiv (item trajectory i j) (item reference i j).
Proof.
  assert (C : returned_value
                (generate_differences_ratios diff_suffix ratio_suffix
                   measured baseline) = true)
    by (vm_compute; reflexivity).
  destruct (generate_differences_ratios diff_suffix ratio_suffix
              measured baseline) as [[differences ratios]|f] eqn:E;
    [|discriminate C].
  exists differences, ratios. split; [reflexivity|].
  exact (@generate_differences_ratios_matrices _ _ diff_suffix ratio_suffix
           measured baseline differences ratios "first_derivative"%string
           trajectory reference 2 4 3 E eq_refl eq_refl eq_refl eq_refl).
Defined.

Lemma generate_base_analytics_keys_witness :
  exists d,
    generate_base_analytics (Some trajectory) times ["A"; "B"]%string
      (Some (vec [1; 1]%Z)) (Some (b64 1)) (Some reference) true = Ok d /\
    shape_of (vec [1; 1]%Z) = Sh1 2 /\
    map fst d =
      ["initial_steady_states"; "max_amount"; "min_amount"; "steady_states";
       "RMSE"; "first_derivative"; "fold_change"; "overshoot";
       "precision_wrt_species-0"; "response_time_wrt_species-0";
       "sensitivity_wrt_species-0";
       "precision_wrt_species-1"; "response_time_wrt_species-1";
       "sensitivity_wrt_species-1"]%string.
Proof.
  assert (C : py_returned
                (generate_base_analytics (Some trajectory) times
                   ["A"; "B"]%string (Some (vec [1; 1]%Z)) (Some (b64 1))
                   (Some reference) true) = true)
    by (vm_compute; reflexivity).
  destruct (generate_base_analytics (Some trajectory) times ["A"; "B"]%string
              (Some (vec [1; 1]%Z)) (Some (b64 1)) (Some reference) true)
    as [d|e] eqn:E; [|discriminate C].
  exists d. split; [reflexivity|]. split; [reflexivity|].
  exact (@generate_base_analytics_keys _ _ trajectory times ["A"; "B"]%string
           (Some (vec [1; 1]%Z)) (Some (b64 1)) (Some reference) true d E
           2 eq_refl).
Defined.

End Binary64.

Section ExactArithmetic.
#[local] Existing Instance Exact.numeric.
#[local] Existing Instance exact_elementary.

Lemma calculate_adaptation_never_infinite_witness :
  (shape_of (xvec [2; 0]%Z) = Sh1 2 /\ shape_of (xvec [1; 3]%Z) = Sh1 2) /\
  exists r,
    calculate_adaptation (Arr (xvec [2; 0]%Z)) (xvec [1; 3]%Z)
      (of_Z 3) (of_Z 7) (fdiv (of_Z 15) (of_Z 2)) = Ok r /\
    shape_of r = Sh1 2 /\
    forall i, i < 2 ->
      item r 0 i = nan \/
      (fltb (fneg inf) (item r 0 i) = true /\ fltb (item r 0 i) inf = true).
Proof.
  split; [split; reflexivity|].
  apply (@calculate_adaptation_never_infinite _ _ _
           (xvec [2; 0]%Z) (xvec [1; 3]%Z)
           (of_Z 3) (of_Z 7) (fdiv (of_Z 15) (of_Z 2)) 2); reflexivity.
Defined.

Lemma compute_adaptability_full_returns_witness :
  (shape_of before_signal = Sh2 1 2 /\ shape_of after_signal = Sh2 2 2 /\
   0 < 1 /\ 0 < 2 /\ (0 <= 0 < 2)%Z) /\
  exists a s p,
    compute_adaptability_full before_signal after_signal (Some 0%Z) true
      = Ok (a, Arr s, p) /\
    shape_of a = Sh1 2 /\ shape_of s = Sh1 2 /\ shape_of p = Sh1 2 /\
    forall i, i < 2 ->
      item a 0 i = nan \/
      (fltb (fneg inf) (item a 0 i) = true /\ fltb (item a 0 i) inf = true).
Proof.
  split; [repeat split; lia|].
  apply (@compute_adaptability_full_returns _ _ ExactFacts.laws _
           before_signal after_signal 1 2 2 0%Z true);
    [reflexivity | reflexivity | lia | lia | lia].
Defined.

End ExactArithmetic.

End MoreWitnesses.
